(** * NbLayoutComponent: the layout shell of the theme framework

    A shallow embedding of
    [src/framework/theme/components/layout/layout.component.ts].

    The component is event driven.  Its methods and subscriber callbacks are
    embedded as functions on a [World]: the component's own fields, the two
    DOM elements it touches (the document body and its host element), the
    state of the loader promise, and the ordered log of the calls the
    component makes on its collaborators (renderer, theme service, spinner
    service, request listeners).  A call into a service is recorded in the
    log; whatever the service does in response reaches the component as a
    separate delivery.  A call that throws leaves a world too: the one the
    program is in when the exception leaves the method. *)

From Stdlib Require Import ZArith Ascii.
From stdpp Require Import base strings list gmap.

(** ** The DOM fragment the renderer works on *)

Module Dom.

(** An element: its class list (a DOMTokenList, an ordered set of tokens)
    and its inline style declarations. *)
Record Element := mkElement {
  classList : list string;
  style : gmap string string
}.

(** ASCII whitespace: tab, line feed, form feed, carriage return, space. *)
Definition is_whitespace (a : ascii) : bool :=
  match a with
  | "009"%char | "010"%char | "012"%char | "013"%char | " "%char => true
  | _ => false
  end.

Fixpoint has_whitespace (s : string) : bool :=
  match s with
  | EmptyString => false
  | String a s => is_whitespace a || has_whitespace s
  end.

(** The tokens a DOMTokenList accepts: not empty (else [SyntaxError]) and
    free of ASCII whitespace (else [InvalidCharacterError]). *)
Definition valid_token (c : string) : bool :=
  negb (String.eqb c EmptyString) && negb (has_whitespace c).

(** The token set with [c] in it: a token already present is not added
    again. *)
Definition token_add (c : string) (l : list string) : list string :=
  if decide (c ∈ l) then l else l ++ [c].

(** The token set without [c]. *)
Definition token_remove (c : string) (l : list string) : list string :=
  filter (λ x, x ≠ c) l.

(** [el.classList.add(c)]; [None] when the call throws. *)
Definition classList_add (c : string) (l : list string) : option (list string) :=
  if valid_token c then Some (token_add c l) else None.

(** [el.classList.remove(c)]; [None] when the call throws. *)
Definition classList_remove (c : string) (l : list string) : option (list string) :=
  if valid_token c then Some (token_remove c l) else None.

Definition addClass (c : string) (e : Element) : option Element :=
  l ← classList_add c (classList e);
  Some {| classList := l; style := style e |}.

Definition removeClass (c : string) (e : Element) : option Element :=
  l ← classList_remove c (classList e);
  Some {| classList := l; style := style e |}.

(** The longhand properties a shorthand stands for.  The table holds
    [overflow], the one property the component sets. *)
Definition longhands (k : string) : list string :=
  if String.eqb k "overflow" then ["overflow-x"; "overflow-y"] else [].

(** [el.style[k] = v]: the declaration is set, and with a shorthand its
    longhands. *)
Definition setStyle (k v : string) (e : Element) : Element :=
  {| classList := classList e;
     style := <[k := v]> (foldr (λ k', insert k' v) (style e) (longhands k)) |}.

End Dom.

Export Dom.

(** ** Values exchanged with the collaborators *)

(** What a template or a caller may bind to a boolean input: a boolean, or
    the string value of an attribute. *)
Inductive AttrValue :=
| AttrBool (b : bool)
| AttrString (s : string).

(** The payload of the theme-change stream; [previous] is [None] for
    [null]/[undefined]. *)
Record ThemeEvent := mkThemeEvent {
  name : string;
  previous : option string
}.

(** JavaScript truthiness of [theme.previous]: [null] and the empty string
    are falsy. *)
Definition truthy (s : option string) : bool :=
  match s with
  | None => false
  | Some s => negb (String.eqb s EmptyString)
  end.

(** String conversion inside a template literal: [null] prints as "null". *)
Definition interpolate (s : option string) : string :=
  match s with
  | None => "null"
  | Some s => s
  end.

(** Template literal [`nb-theme-${x}`]. *)
Definition themeClass (x : string) : string := "nb-theme-" +:+ x.

(** A component class as a request carries it, with what the application's
    modules say about it: whether it is declared as an entry component, so
    that the [ComponentFactoryResolver] has a factory for it. *)
Record ComponentType := mkComponent {
  typeName : string;
  entryComponent : bool
}.

Record ComponentFactory := mkFactory { componentType : ComponentType }.

(** A created instance inside a view container. *)
Record ComponentRef := mkRef {
  factory : ComponentFactory;
  instance : nat
}.

(** The result channel ([Subject<any>]) a request carries. *)
Definition Listener := nat.

Inductive Value :=
| VComponentRef (r : ComponentRef)
| VBool (b : bool).

Record AppendRequest := mkAppend {
  component : ComponentType;
  append_listener : Listener
}.

Record ClearRequest := mkClear { clear_listener : Listener }.

Record ResizeEvent := mkResize { target_innerWidth : Z }.

(** The DOM node a renderer call addresses: the first [body] element of the
    document, or [this.elementRef.nativeElement]. *)
Inductive Target := Body | NativeElement.

Inductive PromiseState := Pending | Fulfilled.

(** Calls issued by the component, in program order. *)
Inductive Call :=
| Renderer_addClass (el : Target) (c : string)
| Renderer_removeClass (el : Target) (c : string)
| Renderer_setStyle (el : Target) (k v : string)
| ThemeService_changeWindowWidth (width : Z)
| ThemeService_clearLayoutTop
| SpinnerService_registerLoader (p : PromiseState)
| SpinnerService_load
| Listener_next (l : Listener) (v : Value)
| Listener_complete (l : Listener)
| Promise_resolve.

(** ** rxjs objects held by the component *)

(** A [Subscription] field: not yet assigned, open, or unsubscribed. *)
Inductive Subscription := Undefined | Open | Closed.

(** The only observer ever attached to [afterViewInit$]:
    [(_) => resolve()]. *)
Inductive Observer := ResolveLoader.

(** A [BehaviorSubject]: the current value ([None] is [null]) and the
    observers subscribed so far. *)
Record BehaviorSubject := mkSubject {
  value : option bool;
  observers : list Observer
}.

(** ** The component and its world *)

Record NbLayoutComponent := mkLayout {
  centerValue : bool;
  windowModeValue : bool;
  withScrollValue : bool;
  veryTopRef : list ComponentRef;
  afterViewInit : BehaviorSubject;
  appendClassSubscription : Subscription;
  removeClassSubscription : Subscription;
  themeSubscription : Subscription;
  appendSubscription : Subscription;
  clearSubscription : Subscription
}.

(** [hostBindings] is Angular's record of the values it last wrote for the
    two [@HostBinding] classes, [windowModeValue] and [withScrollValue];
    [None] until the first change detection. *)
Record World := mkWorld {
  this : NbLayoutComponent;
  body : Element;
  nativeElement : Element;
  hostBindings : option (bool * bool);
  loader : PromiseState;
  created : nat;
  calls : list Call
}.

(** The world a call leaves behind, and whether the call returned or
    threw. *)
Inductive Result :=
| Returned (w : World)
| Thrown (w : World).

Definition world_of (r : Result) : World :=
  match r with
  | Returned w | Thrown w => w
  end.

Definition returned (r : Result) : bool :=
  match r with
  | Returned _ => true
  | Thrown _ => false
  end.

(** Sequencing: what follows a call runs only if the call returned. *)
Definition and_then (r : Result) (k : World → Result) : Result :=
  match r with
  | Returned w => k w
  | Thrown w => Thrown w
  end.

(** *** Field updates *)

Definition set_centerValue (b : bool) (c : NbLayoutComponent) :=
  mkLayout b (windowModeValue c) (withScrollValue c) (veryTopRef c)
    (afterViewInit c) (appendClassSubscription c) (removeClassSubscription c)
    (themeSubscription c) (appendSubscription c) (clearSubscription c).

Definition set_windowModeValue (b : bool) (c : NbLayoutComponent) :=
  mkLayout (centerValue c) b (withScrollValue c) (veryTopRef c)
    (afterViewInit c) (appendClassSubscription c) (removeClassSubscription c)
    (themeSubscription c) (appendSubscription c) (clearSubscription c).

Definition set_withScrollValue (b : bool) (c : NbLayoutComponent) :=
  mkLayout (centerValue c) (windowModeValue c) b (veryTopRef c)
    (afterViewInit c) (appendClassSubscription c) (removeClassSubscription c)
    (themeSubscription c) (appendSubscription c) (clearSubscription c).

Definition set_veryTopRef (l : list ComponentRef) (c : NbLayoutComponent) :=
  mkLayout (centerValue c) (windowModeValue c) (withScrollValue c) l
    (afterViewInit c) (appendClassSubscription c) (removeClassSubscription c)
    (themeSubscription c) (appendSubscription c) (clearSubscription c).

Definition set_afterViewInit (s : BehaviorSubject) (c : NbLayoutComponent) :=
  mkLayout (centerValue c) (windowModeValue c) (withScrollValue c)
    (veryTopRef c) s (appendClassSubscription c) (removeClassSubscription c)
    (themeSubscription c) (appendSubscription c) (clearSubscription c).

Definition set_appendClassSubscription (s : Subscription) (c : NbLayoutComponent) :=
  mkLayout (centerValue c) (windowModeValue c) (withScrollValue c)
    (veryTopRef c) (afterViewInit c) s (removeClassSubscription c)
    (themeSubscription c) (appendSubscription c) (clearSubscription c).

Definition set_removeClassSubscription (s : Subscription) (c : NbLayoutComponent) :=
  mkLayout (centerValue c) (windowModeValue c) (withScrollValue c)
    (veryTopRef c) (afterViewInit c) (appendClassSubscription c) s
    (themeSubscription c) (appendSubscription c) (clearSubscription c).

Definition set_themeSubscription (s : Subscription) (c : NbLayoutComponent) :=
  mkLayout (centerValue c) (windowModeValue c) (withScrollValue c)
    (veryTopRef c) (afterViewInit c) (appendClassSubscription c)
    (removeClassSubscription c) s (appendSubscription c) (clearSubscription c).

Definition set_appendSubscription (s : Subscription) (c : NbLayoutComponent) :=
  mkLayout (centerValue c) (windowModeValue c) (withScrollValue c)
    (veryTopRef c) (afterViewInit c) (appendClassSubscription c)
    (removeClassSubscription c) (themeSubscription c) s (clearSubscription c).

Definition set_clearSubscription (s : Subscription) (c : NbLayoutComponent) :=
  mkLayout (centerValue c) (windowModeValue c) (withScrollValue c)
    (veryTopRef c) (afterViewInit c) (appendClassSubscription c)
    (removeClassSubscription c) (themeSubscription c) (appendSubscription c) s.

Definition with_this (f : NbLayoutComponent → NbLayoutComponent) (w : World) : World :=
  mkWorld (f (this w)) (body w) (nativeElement w) (hostBindings w)
    (loader w) (created w) (calls w).

Definition element (el : Target) (w : World) : Element :=
  match el with
  | Body => body w
  | NativeElement => nativeElement w
  end.

Definition with_element (el : Target) (f : Element → Element) (w : World) : World :=
  match el with
  | Body =>
      mkWorld (this w) (f (body w)) (nativeElement w) (hostBindings w)
        (loader w) (created w) (calls w)
  | NativeElement =>
      mkWorld (this w) (body w) (f (nativeElement w)) (hostBindings w)
        (loader w) (created w) (calls w)
  end.

Definition with_hostBindings (o : option (bool * bool)) (w : World) : World :=
  mkWorld (this w) (body w) (nativeElement w) o (loader w) (created w) (calls w).

Definition with_loader (p : PromiseState) (w : World) : World :=
  mkWorld (this w) (body w) (nativeElement w) (hostBindings w) p (created w) (calls w).

Definition with_created (n : nat) (w : World) : World :=
  mkWorld (this w) (body w) (nativeElement w) (hostBindings w) (loader w) n (calls w).

(** Append a call to the log. *)
Definition record (c : Call) (w : World) : World :=
  mkWorld (this w) (body w) (nativeElement w) (hostBindings w)
    (loader w) (created w) (calls w ++ [c]).

(** ** Collaborators *)

(** *** Renderer2 (default DOM renderer) *)

(** A class call is made, and throws when the DOM refuses the token; the
    element is then as it was. *)
Definition renderer_addClass (el : Target) (c : string) (w : World) : Result :=
  let w := record (Renderer_addClass el c) w in
  match addClass c (element el w) with
  | Some e => Returned (with_element el (λ _, e) w)
  | None => Thrown w
  end.

Definition renderer_removeClass (el : Target) (c : string) (w : World) : Result :=
  let w := record (Renderer_removeClass el c) w in
  match removeClass c (element el w) with
  | Some e => Returned (with_element el (λ _, e) w)
  | None => Thrown w
  end.

Definition renderer_setStyle (el : Target) (k v : string) (w : World) : World :=
  with_element el (setStyle k v) (record (Renderer_setStyle el k v) w).

(** *** The loader promise *)

(** [resolve()]: settles the promise; a later call leaves it fulfilled. *)
Definition promise_resolve (w : World) : World :=
  with_loader Fulfilled (record Promise_resolve w).

(** *** afterViewInit$ *)

Definition notify (o : Observer) (v : option bool) (w : World) : World :=
  match o with
  | ResolveLoader => promise_resolve w
  end.

(** [BehaviorSubject.subscribe(o)]: the observer is registered and is handed
    the current value at once. *)
Definition afterViewInit_subscribe (o : Observer) (w : World) : World :=
  let s := afterViewInit (this w) in
  let w := with_this (set_afterViewInit (mkSubject (value s) (observers s ++ [o]))) w in
  notify o (value s) w.

(** [BehaviorSubject.next(v)]: stores the value and hands it to every
    observer, in subscription order. *)
Definition afterViewInit_next (v : option bool) (w : World) : World :=
  let s := afterViewInit (this w) in
  let w := with_this (set_afterViewInit (mkSubject v (observers s))) w in
  foldl (λ w o, notify o v w) w (observers s).

(** *** Spinner service and theme service, as seen from the component *)

(** [spinnerService.registerLoader(p)]: the log keeps the state the promise
    is in when it is handed over. *)
Definition spinnerService_registerLoader (w : World) : World :=
  record (SpinnerService_registerLoader (loader w)) w.

Definition spinnerService_load (w : World) : World :=
  record SpinnerService_load w.

Definition themeService_changeWindowWidth (width : Z) (w : World) : World :=
  record (ThemeService_changeWindowWidth width) w.

Definition themeService_clearLayoutTop (w : World) : World :=
  record ThemeService_clearLayoutTop w.

(** *** ComponentFactoryResolver and the view container *)

(** [resolveComponentFactory(c)]; [None] when the resolver throws, having no
    factory for [c]. *)
Definition resolveComponentFactory (c : ComponentType) : option ComponentFactory :=
  if entryComponent c then Some (mkFactory c) else None.

(** [veryTopRef.createComponent(f)]: a new instance is appended to the
    container and returned. *)
Definition createComponent (f : ComponentFactory) (w : World) : ComponentRef * World :=
  let r := mkRef f (created w) in
  (r, with_created (S (created w))
        (with_this (set_veryTopRef (veryTopRef (this w) ++ [r])) w)).

(** [veryTopRef.clear()]. *)
Definition veryTopRef_clear (w : World) : World :=
  with_this (set_veryTopRef []) w.

(** ** Subscriber callbacks of NbLayoutComponent *)

Local Infix ">>>" := and_then (at level 50, left associativity).

(** Callback of [onThemeChange()] (constructor). *)
Definition onThemeChange (theme : ThemeEvent) (w : World) : Result :=
  (if truthy (previous theme)
   then renderer_removeClass Body (themeClass (interpolate (previous theme))) w
   else Returned w)
  >>> renderer_addClass Body (themeClass (name theme)).

(** Callback of [onAppendLayoutClass()] (constructor). *)
Definition onAppendLayoutClass (className : string) (w : World) : Result :=
  renderer_addClass NativeElement className w.

(** Callback of [onRemoveLayoutClass()] (constructor). *)
Definition onRemoveLayoutClass (className : string) (w : World) : Result :=
  renderer_removeClass NativeElement className w.

(** Callback of [onAppendToTop()] (ngAfterViewInit). *)
Definition onAppendToTop (data : AppendRequest) (w : World) : Result :=
  match resolveComponentFactory (component data) with
  | None => Thrown w
  | Some componentFactory =>
      let '(componentRef, w) := createComponent componentFactory w in
      let w := record (Listener_next (append_listener data) (VComponentRef componentRef)) w in
      Returned (record (Listener_complete (append_listener data)) w)
  end.

(** Callback of [onClearLayoutTop()] (ngAfterViewInit). *)
Definition onClearLayoutTop (data : ClearRequest) (w : World) : World :=
  let w := veryTopRef_clear w in
  record (Listener_next (clear_listener data) (VBool true)) w.

(** ** Lifecycle of NbLayoutComponent *)

(** Field initialisers: the state of a fresh instance before the
    constructor body runs, in a document with the given body and host. *)
Definition new_world (b h : Element) : World :=
  {| this :=
       {| centerValue := false;
          windowModeValue := false;
          withScrollValue := false;
          veryTopRef := [];
          afterViewInit := mkSubject None [];
          appendClassSubscription := Undefined;
          removeClassSubscription := Undefined;
          themeSubscription := Undefined;
          appendSubscription := Undefined;
          clearSubscription := Undefined |};
     body := b;
     nativeElement := h;
     hostBindings := None;
     loader := Pending;
     created := 0;
     calls := [] |}.

(** The constructor body; [innerWidth] is [window.innerWidth].  The executor
    of [new Promise] runs before the promise is passed to
    [registerLoader]. *)
Definition constructor (innerWidth : Z) (w : World) : World :=
  let w := with_this (set_themeSubscription Open) w in
  let w := with_this (set_appendClassSubscription Open) w in
  let w := with_this (set_removeClassSubscription Open) w in
  let w := afterViewInit_subscribe ResolveLoader w in
  let w := spinnerService_registerLoader w in
  let w := spinnerService_load w in
  themeService_changeWindowWidth innerWidth w.

Definition ngAfterViewInit (w : World) : World :=
  let w := with_this (set_appendSubscription Open) w in
  let w := with_this (set_clearSubscription Open) w in
  afterViewInit_next (Some true) w.

(** [s.unsubscribe()] on a field: a [TypeError] when the field was never
    assigned, otherwise the subscription is closed. *)
Definition unsubscribe (s : Subscription) : option Subscription :=
  match s with
  | Undefined => None
  | Open | Closed => Some Closed
  end.

(** [this.field.unsubscribe()] as a statement of a method. *)
Definition unsubscribe_field
    (field : NbLayoutComponent → Subscription)
    (set_field : Subscription → NbLayoutComponent → NbLayoutComponent)
    (w : World) : Result :=
  match unsubscribe (field (this w)) with
  | Some s => Returned (with_this (set_field s) w)
  | None => Thrown w
  end.

(** The body of [ngOnDestroy], statement by statement: a [TypeError] leaves
    the subscriptions before it closed and the ones after it as they
    were. *)
Definition ngOnDestroy_outcome (w : World) : Result :=
  Returned (themeService_clearLayoutTop w)
  >>> unsubscribe_field themeSubscription set_themeSubscription
  >>> unsubscribe_field appendClassSubscription set_appendClassSubscription
  >>> unsubscribe_field removeClassSubscription set_removeClassSubscription
  >>> unsubscribe_field appendSubscription set_appendSubscription
  >>> unsubscribe_field clearSubscription set_clearSubscription.

(** [ngOnDestroy] as a partial function: the world it returns in, [None]
    when it throws. *)
Definition ngOnDestroy (w : World) : option World :=
  match ngOnDestroy_outcome w with
  | Returned w' => Some w'
  | Thrown _ => None
  end.

(** [@HostListener('window:resize')]. *)
Definition onResize (event : ResizeEvent) (w : World) : World :=
  themeService_changeWindowWidth (target_innerWidth event) w.

(** *** The host bindings *)

(** One class binding at change detection: Angular writes only at the first
    check or when the bound value differs from the one it last wrote, and
    then adds the class for a true value and removes it for a false one. *)
Definition bind_class (c : string) (write value : bool) (e : Element) : Element :=
  if write
  then {| classList := if value then token_add c (classList e)
                       else token_remove c (classList e);
          style := style e |}
  else e.

(** Change detection of the host element, for
    [@HostBinding('class.window-mode') windowModeValue] and
    [@HostBinding('class.with-scroll') withScrollValue]. *)
Definition detectChanges (w : World) : World :=
  let windowMode := windowModeValue (this w) in
  let withScroll := withScrollValue (this w) in
  let '(write_windowMode, write_withScroll) :=
    match hostBindings w with
    | None => (true, true)
    | Some (old_windowMode, old_withScroll) =>
        (negb (Bool.eqb old_windowMode windowMode), negb (Bool.eqb old_withScroll withScroll))
    end in
  with_hostBindings (Some (windowMode, withScroll))
    (with_element NativeElement
       (λ e, bind_class "with-scroll" write_withScroll withScroll
               (bind_class "window-mode" write_windowMode windowMode e)) w).

(** ** The theme service's streams *)

(** Modelled from the spec: the event streams of the ThemeBroadcaster
    ([theme.service.ts], not part of the sources at hand).  The spec
    describes them as observable streams that deliver events in emission
    order and states that a request arriving before attachment is not
    serviced and not buffered.  A stream therefore hands an event to the
    component's callback exactly when the component's subscription on that
    stream is open at the time of emission, and keeps nothing otherwise. *)
Definition deliver (s : Subscription) (callback : World → World) (w : World) : World :=
  match s with
  | Open => callback w
  | Undefined | Closed => w
  end.

(** rxjs runs a subscriber's callback under a guard: when the callback
    throws, the subscriber is unsubscribed and the error goes on to the
    emitter.  The component holds that subscriber in a field, which
    [close] marks closed. *)
Definition unsubscribe_on_throw
    (close : NbLayoutComponent → NbLayoutComponent) (r : Result) : World :=
  match r with
  | Returned w => w
  | Thrown w => with_this close w
  end.

Definition emit_themeChange (theme : ThemeEvent) (w : World) : World :=
  deliver (themeSubscription (this w))
    (λ w, unsubscribe_on_throw (set_themeSubscription Closed) (onThemeChange theme w)) w.

Definition emit_appendLayoutClass (className : string) (w : World) : World :=
  deliver (appendClassSubscription (this w))
    (λ w, unsubscribe_on_throw (set_appendClassSubscription Closed)
            (onAppendLayoutClass className w)) w.

Definition emit_removeLayoutClass (className : string) (w : World) : World :=
  deliver (removeClassSubscription (this w))
    (λ w, unsubscribe_on_throw (set_removeClassSubscription Closed)
            (onRemoveLayoutClass className w)) w.

Definition emit_appendToTop (data : AppendRequest) (w : World) : World :=
  deliver (appendSubscription (this w))
    (λ w, unsubscribe_on_throw (set_appendSubscription Closed) (onAppendToTop data w)) w.

Definition emit_clearLayoutTop (data : ClearRequest) (w : World) : World :=
  deliver (clearSubscription (this w)) (onClearLayoutTop data) w.

(** ** Executions *)

(** What can happen to a constructed component: Angular's lifecycle hooks,
    input bindings and change detection, deliveries on the five streams,
    window resizes. *)
Inductive Action :=
| NgAfterViewInit
| NgOnDestroy
| DetectChanges
| SetCenter (val : AttrValue)
| SetWindowMode (val : AttrValue)
| SetWithScroll (val : AttrValue)
| ThemeChange (theme : ThemeEvent)
| AppendLayoutClass (className : string)
| RemoveLayoutClass (className : string)
| AppendToTop (data : AppendRequest)
| ClearLayoutTop (data : ClearRequest)
| WindowResize (event : ResizeEvent).

Definition is_view_init (a : Action) : bool :=
  match a with
  | NgAfterViewInit => true
  | _ => false
  end.

Definition is_destroy (a : Action) : bool :=
  match a with
  | NgOnDestroy => true
  | _ => false
  end.

Definition is_resize (a : Action) : bool :=
  match a with
  | WindowResize _ => true
  | _ => false
  end.

(** Deliveries on one of the theme service's five streams. *)
Definition is_delivery (a : Action) : bool :=
  match a with
  | ThemeChange _ | AppendLayoutClass _ | RemoveLayoutClass _
  | AppendToTop _ | ClearLayoutTop _ => true
  | _ => false
  end.

(** The view of an instance is initialised once: both request
    subscriptions are still unassigned. *)
Definition view_pending (w : World) : bool :=
  match appendSubscription (this w), clearSubscription (this w) with
  | Undefined, Undefined => true
  | _, _ => false
  end.

(** The action is [ngOnDestroy] and the hook returns: Angular goes on to
    take the instance down. *)
Definition destroys (a : Action) (w : World) : bool :=
  is_destroy a && returned (ngOnDestroy_outcome w).

(** ** Input setters *)

Section Inputs.

(** [convertToBoolProperty] lives in [../helpers]; the setters are embedded
    over any coercion. *)
Variable convertToBoolProperty : AttrValue → bool.

Definition set_center (val : AttrValue) (w : World) : World :=
  with_this (set_centerValue (convertToBoolProperty val)) w.

Definition set_withScroll (val : AttrValue) (w : World) : World :=
  let w := with_this (set_withScrollValue (convertToBoolProperty val)) w in
  if withScrollValue (this w)
  then renderer_setStyle Body "overflow" "hidden" w
  else renderer_setStyle Body "overflow" "initial" w.

Definition set_windowMode (val : AttrValue) (w : World) : World :=
  let w := with_this (set_windowModeValue (convertToBoolProperty val)) w in
  set_withScroll (AttrBool true) w.

(** One action, once it reaches the component: the world it leaves,
    whether the call returned or threw.  [None]: Angular never issues the
    hook in that state ([ngAfterViewInit] on an initialised view). *)
Definition step (a : Action) (w : World) : option World :=
  match a with
  | NgAfterViewInit => if view_pending w then Some (ngAfterViewInit w) else None
  | NgOnDestroy => Some (world_of (ngOnDestroy_outcome w))
  | DetectChanges => Some (detectChanges w)
  | SetCenter val => Some (set_center val w)
  | SetWindowMode val => Some (set_windowMode val w)
  | SetWithScroll val => Some (set_withScroll val w)
  | ThemeChange theme => Some (emit_themeChange theme w)
  | AppendLayoutClass c => Some (emit_appendLayoutClass c w)
  | RemoveLayoutClass c => Some (emit_removeLayoutClass c w)
  | AppendToTop data => Some (emit_appendToTop data w)
  | ClearLayoutTop data => Some (emit_clearLayoutTop data w)
  | WindowResize event => Some (onResize event w)
  end.

(** Which actions reach the component.  [alive] says whether the instance
    is still wired to Angular, which it is until its [ngOnDestroy] has
    returned.  After that Angular issues no hook, input binding or change
    detection to it (there is no such execution: [None]) and the window's
    resize events no longer reach it, the host listener being gone; the
    theme service goes on emitting to whatever subscriptions there are. *)
Fixpoint dispatch (alive : bool) (tr : list Action) (w : World) : option (bool * World) :=
  match tr with
  | [] => Some (alive, w)
  | a :: tr =>
      if alive || is_delivery a
      then w' ← step a w; dispatch (alive && negb (destroys a w)) tr w'
      else if is_resize a then dispatch alive tr w else None
  end.

(** An execution of a live instance, to its last world. *)
Definition run (tr : list Action) (w : World) : option World :=
  snd <$> dispatch true tr w.

End Inputs.

(** A coercion used to exercise the setters on concrete inputs.

    Modelled from the spec: [convertToBoolProperty] of [../helpers], which
    is not part of the sources at hand.  The spec calls it a normalisation
    of attribute-like inputs to strict booleans: a boolean is kept, the
    presence of an attribute (the empty string) and the string "true" give
    [true], the string "false" gives [false]. *)
Definition convertToBoolProperty_model (val : AttrValue) : bool :=
  match val with
  | AttrBool b => b
  | AttrString s => bool_decide (s = "true" ∨ s = EmptyString)
  end.

(** A document whose body and host carry no class and no inline style. *)
Definition blank : Element := mkElement [] ∅.

(** A freshly constructed component in a blank document, 1024 pixels wide. *)
Definition constructed : World := constructor 1024 (new_world blank blank).

(** The component once its view is initialised. *)
Definition attached : World := ngAfterViewInit constructed.

(** The two deliveries of the spec's scenario. *)
Definition theme_a : ThemeEvent := mkThemeEvent "a" None.
Definition theme_b : ThemeEvent := mkThemeEvent "b" (Some "a").

(** Two component classes: one declared as an entry component, one not. *)
Definition NbSpinnerComponent : ComponentType := mkComponent "NbSpinnerComponent" true.
Definition NotRegistered : ComponentType := mkComponent "NotRegistered" false.

(** ** Observations on worlds, calls and actions *)

(** The widths reported to the theme service, in call order. *)
Definition width_reports (cs : list Call) : list Z :=
  omap (λ c, match c with
             | ThemeService_changeWindowWidth width => Some width
             | _ => None
             end) cs.

Definition assigned (s : Subscription) : bool :=
  match s with
  | Undefined => false
  | Open | Closed => true
  end.

(** Every subscription field of the component holds a subscription. *)
Definition subscriptions_assigned (w : World) : bool :=
  assigned (themeSubscription (this w))
  && assigned (appendClassSubscription (this w))
  && assigned (removeClassSubscription (this w))
  && assigned (appendSubscription (this w))
  && assigned (clearSubscription (this w)).

(** The three subscription fields the constructor assigns hold a
    subscription. *)
Definition constructor_assigned (w : World) : bool :=
  assigned (themeSubscription (this w))
  && assigned (appendClassSubscription (this w))
  && assigned (removeClassSubscription (this w)).

(** Every subscription field of the component holds a closed subscription. *)
Definition subscriptions_closed (w : World) : Prop :=
  themeSubscription (this w) = Closed
  ∧ appendClassSubscription (this w) = Closed
  ∧ removeClassSubscription (this w) = Closed
  ∧ appendSubscription (this w) = Closed
  ∧ clearSubscription (this w) = Closed.

(** Requests on the top area. *)
Definition is_request (a : Action) : bool :=
  match a with
  | AppendToTop _ | ClearLayoutTop _ => true
  | _ => false
  end.

(** Assignments to [withScroll], directly or through [windowMode]. *)
Definition is_scroll_input (a : Action) : bool :=
  match a with
  | SetWindowMode _ | SetWithScroll _ => true
  | _ => false
  end.

(** The widths carried by the resize events of an execution, in order. *)
Definition resize_widths (tr : list Action) : list Z :=
  omap (λ a, match a with
             | WindowResize event => Some (target_innerWidth event)
             | _ => None
             end) tr.

(** The part of an execution before its first [ngOnDestroy]. *)
Fixpoint before_destroy (tr : list Action) : list Action :=
  match tr with
  | [] => []
  | a :: tr => if is_destroy a then [] else a :: before_destroy tr
  end.

(** The five subscription fields, in declaration order. *)
Definition subscriptions (w : World) :
    Subscription * Subscription * Subscription * Subscription * Subscription :=
  (appendClassSubscription (this w), removeClassSubscription (this w),
   themeSubscription (this w), appendSubscription (this w), clearSubscription (this w)).

(** The three stages of an instance, as its subscription fields show them. *)
Inductive Phase := ViewPending | ViewAttached | Destroyed.

Definition phase_of (w : World) : option Phase :=
  match subscriptions w with
  | (Open, Open, Open, Undefined, Undefined) => Some ViewPending
  | (Open, Open, Open, Open, Open) => Some ViewAttached
  | (Closed, Closed, Closed, Closed, Closed) => Some Destroyed
  | _ => None
  end.

(** The renderer calls the component may make: on the body, adding or
    removing a class that starts with [nb-theme-] and setting [overflow] to
    [hidden] or [initial]; on the host element, adding or removing a
    class. *)
Definition renderer_call_allowed (c : Call) : bool :=
  match c with
  | Renderer_addClass Body c | Renderer_removeClass Body c => String.prefix "nb-theme-" c
  | Renderer_addClass NativeElement _ | Renderer_removeClass NativeElement _ => true
  | Renderer_setStyle Body k v =>
      String.eqb k "overflow" && (String.eqb v "hidden" || String.eqb v "initial")
  | Renderer_setStyle NativeElement _ _ => false
  | _ => true
  end.

(** *** Inputs on which no callback throws *)

(** The class tokens of a theme event are valid: the name has no
    whitespace, and neither has [previous] when it is used. *)
Definition theme_ok (theme : ThemeEvent) : bool :=
  negb (has_whitespace (name theme))
  && (negb (truthy (previous theme)) || negb (has_whitespace (interpolate (previous theme)))).

(** A delivery whose callback cannot throw: valid class tokens, a component
    the resolver has a factory for. *)
Definition clean (a : Action) : bool :=
  match a with
  | ThemeChange theme => theme_ok theme
  | AppendLayoutClass c | RemoveLayoutClass c => valid_token c
  | AppendToTop data => entryComponent (component data)
  | _ => true
  end.

(** [Q] holds of every action of [tr], given the actions before it ([hist]
    to begin with). *)
Fixpoint all_prefixed (Q : list Action → Action → bool) (hist tr : list Action) : bool :=
  match tr with
  | [] => true
  | a :: tr => Q hist a && all_prefixed Q (hist ++ [a]) tr
  end.

(** Every [ngOnDestroy] of the execution comes after an
    [ngAfterViewInit]. *)
Definition destroy_after_init (tr : list Action) : bool :=
  all_prefixed (λ hist a, negb (is_destroy a) || existsb is_view_init hist) [] tr.

(** An execution in which no callback throws and no [ngOnDestroy] comes
    before the view is initialised. *)
Definition orderly (tr : list Action) : bool :=
  all_prefixed (λ hist a, clean a && (negb (is_destroy a) || existsb is_view_init hist)) [] tr.

(** ** Deliveries in sequence *)

Definition emit_themeChanges (themes : list ThemeEvent) (w : World) : World :=
  foldl (λ w theme, emit_themeChange theme w) w themes.

Definition emit_appendsToTop (requests : list AppendRequest) (w : World) : World :=
  foldl (λ w data, emit_appendToTop data w) w requests.

(** A run of theme changes as a theme service with current theme [current]
    would publish them: each event names the theme before it as
    [previous], and every theme has a name that is not empty and has no
    whitespace. *)
Fixpoint chained (current : option string) (themes : list ThemeEvent) : bool :=
  match themes with
  | [] => true
  | theme :: themes =>
      bool_decide (previous theme = current)
      && valid_token (name theme)
      && chained (Some (name theme)) themes
  end.

(** The theme in force after a run of theme changes. *)
Definition last_theme (current : option string) (themes : list ThemeEvent) : option string :=
  foldl (λ _ theme, Some (name theme)) current themes.

(** The body class that stands for the theme in force, if any. *)
Definition theme_classes (current : option string) : list string :=
  match current with
  | None => []
  | Some x => [themeClass x]
  end.

(** The instances a run of append requests creates, the first of them
    numbered [n]. *)
Fixpoint created_refs (n : nat) (requests : list AppendRequest) : list ComponentRef :=
  match requests with
  | [] => []
  | data :: requests =>
      mkRef (mkFactory (component data)) n :: created_refs (S n) requests
  end.

(** The listener calls a run of append requests causes. *)
Fixpoint append_signals (n : nat) (requests : list AppendRequest) : list Call :=
  match requests with
  | [] => []
  | data :: requests =>
      Listener_next (append_listener data)
        (VComponentRef (mkRef (mkFactory (component data)) n))
      :: Listener_complete (append_listener data)
      :: append_signals (S n) requests
  end.

(** What a delivery on the body's classes leaves alone. *)
Definition same_but_body_classes (w w' : World) : Prop :=
  this w' = this w
  ∧ style (body w') = style (body w)
  ∧ nativeElement w' = nativeElement w
  ∧ hostBindings w' = hostBindings w.

(** * Properties *)

(** ** Tokens and class lists *)

Lemma token_add_spec (c x : string) (l : list string) :
  x ∈ token_add c l ↔ x = c ∨ x ∈ l.
Proof.
  unfold token_add. destruct (decide (c ∈ l)) as [Hin | Hout].
  - split; [tauto |]. intros [-> | H]; assumption.
  - rewrite elem_of_app, list_elem_of_singleton. tauto.
Qed.

Lemma token_remove_spec (c x : string) (l : list string) :
  x ∈ token_remove c l ↔ x ≠ c ∧ x ∈ l.
Proof. unfold token_remove. rewrite list_elem_of_filter. reflexivity. Qed.


Lemma token_remove_absent (c : string) (l : list string) :
  c ∉ l → token_remove c l = l.
Proof.
  unfold token_remove. induction l as [| x l IH]; intros Hout.
  - reflexivity.
  - apply not_elem_of_cons in Hout as [Hne Hout].
    rewrite filter_cons_True by congruence. rewrite IH by assumption. reflexivity.
Qed.

Lemma token_remove_not_elem (c : string) (l : list string) : c ∉ token_remove c l.
Proof. rewrite token_remove_spec. tauto. Qed.

Lemma token_remove_idemp (c : string) (l : list string) :
  token_remove c (token_remove c l) = token_remove c l.
Proof. apply token_remove_absent, token_remove_not_elem. Qed.

Lemma token_remove_app (c : string) (l1 l2 : list string) :
  token_remove c (l1 ++ l2) = token_remove c l1 ++ token_remove c l2.
Proof. apply filter_app. Qed.

Lemma token_remove_single (c : string) : token_remove c [c] = [].
Proof. unfold token_remove. rewrite filter_cons_False by tauto. reflexivity. Qed.

Lemma token_add_present (c : string) (l : list string) : c ∈ l → token_add c l = l.
Proof. intros Hin. unfold token_add. rewrite decide_True by assumption. reflexivity. Qed.

Lemma token_add_absent (c : string) (l : list string) : c ∉ l → token_add c l = l ++ [c].
Proof. intros Hout. unfold token_add. rewrite decide_False by assumption. reflexivity. Qed.

Lemma token_add_idemp (c : string) (l : list string) :
  token_add c (token_add c l) = token_add c l.
Proof. apply token_add_present, token_add_spec. left. reflexivity. Qed.

Lemma token_remove_add_ne (c d : string) (l : list string) :
  c ≠ d → token_remove c (token_add d l) = token_add d (token_remove c l).
Proof.
  intros Hne. destruct (decide (d ∈ l)) as [Hin | Hout].
  - rewrite (token_add_present d l) by assumption.
    rewrite token_add_present; [reflexivity |].
    apply token_remove_spec. split; [congruence | assumption].
  - rewrite (token_add_absent d l) by assumption.
    rewrite token_remove_app.
    rewrite (token_remove_absent c [d]).
    + rewrite token_add_absent; [reflexivity |].
      rewrite token_remove_spec. tauto.
    + rewrite list_elem_of_singleton. exact Hne.
Qed.

Lemma token_remove_add_same (c : string) (l : list string) :
  token_remove c (token_add c l) = token_remove c l.
Proof.
  destruct (decide (c ∈ l)) as [Hin | Hout].
  - rewrite token_add_present by assumption. reflexivity.
  - rewrite token_add_absent by assumption.
    rewrite token_remove_app, token_remove_single. apply app_nil_r.
Qed.

Lemma valid_token_themeClass (x : string) :
  valid_token (themeClass x) = negb (has_whitespace x).
Proof. reflexivity. Qed.

Lemma themeClass_prefix x : String.prefix "nb-theme-" (themeClass x) = true.
Proof.
  unfold themeClass. simpl.
  repeat (destruct (Ascii.ascii_dec _ _) as [_ | Hne]; [| contradiction Hne; reflexivity]).
  destruct x; reflexivity.
Qed.

(** ** The renderer's class calls *)

Lemma renderer_addClass_valid el c w :
  valid_token c = true →
  renderer_addClass el c w
  = Returned (with_element el (λ e, mkElement (token_add c (classList e)) (style e))
                (record (Renderer_addClass el c) w)).
Proof.
  intros Hc. unfold renderer_addClass, addClass, classList_add. rewrite Hc.
  destruct el; reflexivity.
Qed.

Lemma renderer_addClass_invalid el c w :
  valid_token c = false →
  renderer_addClass el c w = Thrown (record (Renderer_addClass el c) w).
Proof.
  intros Hc. unfold renderer_addClass, addClass, classList_add. rewrite Hc. reflexivity.
Qed.

Lemma renderer_removeClass_valid el c w :
  valid_token c = true →
  renderer_removeClass el c w
  = Returned (with_element el (λ e, mkElement (token_remove c (classList e)) (style e))
                (record (Renderer_removeClass el c) w)).
Proof.
  intros Hc. unfold renderer_removeClass, removeClass, classList_remove. rewrite Hc.
  destruct el; reflexivity.
Qed.

Lemma renderer_removeClass_invalid el c w :
  valid_token c = false →
  renderer_removeClass el c w = Thrown (record (Renderer_removeClass el c) w).
Proof.
  intros Hc. unfold renderer_removeClass, removeClass, classList_remove. rewrite Hc.
  reflexivity.
Qed.

(** ** The theme callback *)

(** With valid tokens the callback returns, having asked for the removal
    (when [previous] is truthy) and then for the addition. *)
Lemma onThemeChange_ok theme w :
  theme_ok theme = true →
  ∃ w', onThemeChange theme w = Returned w'
        ∧ calls w' = calls w
                     ++ (if truthy (previous theme)
                         then [Renderer_removeClass Body
                                 (themeClass (interpolate (previous theme)))]
                         else [])
                     ++ [Renderer_addClass Body (themeClass (name theme))]
        ∧ classList (body w')
          = token_add (themeClass (name theme))
              (if truthy (previous theme)
               then token_remove (themeClass (interpolate (previous theme)))
                      (classList (body w))
               else classList (body w))
        ∧ same_but_body_classes w w'.
Proof.
  unfold theme_ok. intros Hok. apply andb_prop in Hok as [Hname Hprev].
  unfold onThemeChange. destruct (truthy (previous theme)); simpl in Hprev.
  - rewrite renderer_removeClass_valid by (rewrite valid_token_themeClass; exact Hprev).
    simpl. rewrite renderer_addClass_valid by (rewrite valid_token_themeClass; exact Hname).
    eexists. split; [reflexivity |]. simpl. rewrite <- app_assoc.
    repeat split.
  - simpl. rewrite renderer_addClass_valid by (rewrite valid_token_themeClass; exact Hname).
    eexists. split; [reflexivity |]. simpl. repeat split.
Qed.

(** With an invalid token the callback throws; the body keeps its inline
    style and nothing else in the world moves but the body's classes and
    the log. *)
Lemma onThemeChange_throws theme w :
  theme_ok theme = false →
  ∃ w', onThemeChange theme w = Thrown w' ∧ same_but_body_classes w w'.
Proof.
  unfold theme_ok, onThemeChange. intros Hok.
  destruct (truthy (previous theme)); simpl in Hok.
  - destruct (has_whitespace (interpolate (previous theme))) eqn:Hprev.
    + rewrite renderer_removeClass_invalid
        by (rewrite valid_token_themeClass, Hprev; reflexivity).
      eexists. split; [reflexivity |]. repeat split.
    + rewrite renderer_removeClass_valid
        by (rewrite valid_token_themeClass, Hprev; reflexivity).
      simpl. rewrite andb_true_r in Hok. apply negb_false_iff in Hok.
      rewrite renderer_addClass_invalid
        by (rewrite valid_token_themeClass, Hok; reflexivity).
      eexists. split; [reflexivity |]. repeat split.
  - rewrite andb_true_r in Hok. apply negb_false_iff in Hok. simpl.
    rewrite renderer_addClass_invalid
      by (rewrite valid_token_themeClass, Hok; reflexivity).
    eexists. split; [reflexivity |]. repeat split.
Qed.

Lemma emit_themeChange_ok theme w :
  themeSubscription (this w) = Open → theme_ok theme = true →
  onThemeChange theme w = Returned (emit_themeChange theme w).
Proof.
  intros Hopen Hok. unfold emit_themeChange. rewrite Hopen. simpl.
  destruct (onThemeChange_ok theme w Hok) as (w' & -> & _). reflexivity.
Qed.

Lemma deliver_open callback w : deliver Open callback w = callback w.
Proof. reflexivity. Qed.

(** ** Theme changes (C1) *)




(** ** Scroll mode and window mode (C3, C6, C10) *)

Lemma setStyle_lookup k v e : style (setStyle k v e) !! k = Some v.
Proof. unfold setStyle. simpl. apply lookup_insert_eq. Qed.

Section InputProperties.

Variable convertToBoolProperty : AttrValue → bool.

(** The one fact about the coercion the setters rely on: a strict boolean
    is left as it is. *)
Hypothesis convert_bool : ∀ b, convertToBoolProperty (AttrBool b) = b.

Lemma set_withScroll_spec val w :
  let w' := set_withScroll convertToBoolProperty val w in
  let overflow := if convertToBoolProperty val then "hidden" else "initial" in
  withScrollValue (this w') = convertToBoolProperty val
  ∧ style (body w') !! "overflow" = Some overflow
  ∧ calls w' = calls w ++ [Renderer_setStyle Body "overflow" overflow].
Proof.
  unfold set_withScroll. simpl.
  destruct (convertToBoolProperty val); simpl;
    (split; [reflexivity | split; [apply lookup_insert_eq | reflexivity]]).
Qed.

(** C6: for every state of the world, setting [withScroll] to [true] sets
    the body's inline [overflow] style to [hidden] within the setter call,
    and setting it to [false] sets it to [initial], the CSS keyword for the
    property's default. *)
Theorem C6_withScroll_sets_body_overflow (w : World) :
  (withScrollValue (this (set_withScroll convertToBoolProperty (AttrBool true) w)) = true
   ∧ style (body (set_withScroll convertToBoolProperty (AttrBool true) w)) !! "overflow"
     = Some "hidden"
   ∧ calls (set_withScroll convertToBoolProperty (AttrBool true) w)
     = calls w ++ [Renderer_setStyle Body "overflow" "hidden"])
  ∧ (withScrollValue (this (set_withScroll convertToBoolProperty (AttrBool false) w)) = false
     ∧ style (body (set_withScroll convertToBoolProperty (AttrBool false) w)) !! "overflow"
       = Some "initial"
     ∧ calls (set_withScroll convertToBoolProperty (AttrBool false) w)
       = calls w ++ [Renderer_setStyle Body "overflow" "initial"]).
Proof.
  split.
  - pose proof (set_withScroll_spec (AttrBool true) w) as H.
    simpl in H. rewrite convert_bool in H. exact H.
  - pose proof (set_withScroll_spec (AttrBool false) w) as H.
    simpl in H. rewrite convert_bool in H. exact H.
Qed.

Lemma set_windowMode_spec val w :
  let w' := set_windowMode convertToBoolProperty val w in
  windowModeValue (this w') = convertToBoolProperty val
  ∧ withScrollValue (this w') = true
  ∧ style (body w') !! "overflow" = Some "hidden"
  ∧ calls w' = calls w ++ [Renderer_setStyle Body "overflow" "hidden"].
Proof.
  unfold set_windowMode.
  set (w1 := with_this (set_windowModeValue (convertToBoolProperty val)) w).
  pose proof (set_withScroll_spec (AttrBool true) w1) as H.
  simpl in H. rewrite convert_bool in H. destruct H as (Hv & Hs & Hc).
  simpl. repeat split; try assumption.
  unfold set_withScroll. simpl. rewrite convert_bool. reflexivity.
Qed.

(** C3: whatever [withScrollValue] was, after [windowMode] is set to [true]
    it is [true]; and setting [windowMode] to [false] does not leave
    [withScrollValue] at [false]. *)
Theorem C3_windowMode_forces_withScroll (w : World) :
  withScrollValue (this (set_windowMode convertToBoolProperty (AttrBool true) w)) = true
  ∧ withScrollValue (this (set_windowMode convertToBoolProperty (AttrBool false) w)) ≠ false.
Proof.
  split.
  - apply (set_windowMode_spec (AttrBool true) w).
  - pose proof (set_windowMode_spec (AttrBool false) w) as (_ & H & _).
    rewrite H. discriminate.
Qed.

(** C10: assigning any value to [windowMode], [false] and values coerced to
    [false] included, sets [withScrollValue] to [true] and the body's
    inline [overflow] style to [hidden]. *)
Theorem C10_windowMode_any_value_hides_overflow (val : AttrValue) (w : World) :
  withScrollValue (this (set_windowMode convertToBoolProperty val w)) = true
  ∧ style (body (set_windowMode convertToBoolProperty val w)) !! "overflow" = Some "hidden".
Proof.
  pose proof (set_windowMode_spec val w) as (_ & Hv & Hs & _).
  split; assumption.
Qed.

End InputProperties.

Lemma C6_withScroll_witness :
  (∀ b, convertToBoolProperty_model (AttrBool b) = b)
  ∧ style (body (set_withScroll convertToBoolProperty_model (AttrBool true) constructed))
      !! "overflow" = Some "hidden"
  ∧ style (body (set_withScroll convertToBoolProperty_model (AttrBool false)
                   (set_withScroll convertToBoolProperty_model (AttrBool true) constructed)))
      !! "overflow" = Some "initial".
Proof.
  split; [intros b; reflexivity |].
  split.
  - apply (C6_withScroll_sets_body_overflow convertToBoolProperty_model
             (λ b, eq_refl) constructed).
  - apply (C6_withScroll_sets_body_overflow convertToBoolProperty_model
             (λ b, eq_refl)
             (set_withScroll convertToBoolProperty_model (AttrBool true) constructed)).
Defined.

Lemma C3_windowMode_witness :
  (∀ b, convertToBoolProperty_model (AttrBool b) = b)
  ∧ withScrollValue (this (set_windowMode convertToBoolProperty_model (AttrBool true) constructed))
    = true
  ∧ withScrollValue (this (set_windowMode convertToBoolProperty_model (AttrBool false) constructed))
    ≠ false.
Proof.
  split; [intros b; reflexivity |].
  apply (C3_windowMode_forces_withScroll convertToBoolProperty_model
           (λ b, eq_refl) constructed).
Defined.

Lemma C10_windowMode_witness :
  (∀ b, convertToBoolProperty_model (AttrBool b) = b)
  ∧ convertToBoolProperty_model (AttrString "false") = false
  ∧ withScrollValue (this (set_windowMode convertToBoolProperty_model (AttrString "false") constructed))
    = true
  ∧ style (body (set_windowMode convertToBoolProperty_model (AttrString "false") constructed))
      !! "overflow" = Some "hidden".
Proof.
  split; [intros b; reflexivity |].
  split; [reflexivity |].
  apply (C10_windowMode_any_value_hides_overflow convertToBoolProperty_model
           (λ b, eq_refl) (AttrString "false") constructed).
Defined.

(** ** Requests on the top area (C4, C5) *)

Lemma onAppendToTop_entry data w :
  entryComponent (component data) = true →
  ∃ w', onAppendToTop data w = Returned w'
        ∧ this w' = set_veryTopRef
                      (veryTopRef (this w) ++ [mkRef (mkFactory (component data)) (created w)])
                      (this w)
        ∧ created w' = S (created w)
        ∧ calls w' = calls w
                     ++ [Listener_next (append_listener data)
                           (VComponentRef (mkRef (mkFactory (component data)) (created w)));
                         Listener_complete (append_listener data)]
        ∧ body w' = body w ∧ nativeElement w' = nativeElement w
        ∧ hostBindings w' = hostBindings w.
Proof.
  intros Hentry. unfold onAppendToTop, resolveComponentFactory. rewrite Hentry. simpl.
  eexists. split; [reflexivity |]. simpl. rewrite <- app_assoc. repeat split.
Qed.

Lemma onAppendToTop_no_factory data w :
  entryComponent (component data) = false → onAppendToTop data w = Thrown w.
Proof.
  intros Hentry. unfold onAppendToTop, resolveComponentFactory. rewrite Hentry. reflexivity.
Qed.

Lemma emit_appendToTop_entry data w :
  appendSubscription (this w) = Open → entryComponent (component data) = true →
  onAppendToTop data w = Returned (emit_appendToTop data w).
Proof.
  intros Hopen Hentry. unfold emit_appendToTop. rewrite Hopen. simpl.
  destruct (onAppendToTop_entry data w Hentry) as (w' & -> & _). reflexivity.
Qed.

(** C4, as the spec words it, fails: a request for a component the resolver
    has no factory for makes [resolveComponentFactory] throw.  Nothing is
    instantiated, nothing is sent on the request's listener, and the append
    subscription is closed. *)
Lemma C4_no_factory_counterexample :
  veryTopRef (this (emit_appendToTop (mkAppend NotRegistered 7) attached)) = []
  ∧ calls (emit_appendToTop (mkAppend NotRegistered 7) attached) = calls attached
  ∧ appendSubscription (this (emit_appendToTop (mkAppend NotRegistered 7) attached)) = Closed.
Proof. vm_compute. repeat split. Qed.

(** C4, amended: for every append request for a component the resolver has
    a factory for, delivered while the append subscription is open (that
    is, after the view was initialised), the factory is resolved, one new
    instance of the component is appended to the insertion point, and the
    request's listener receives that instance once and is then
    completed. *)
Theorem C4_append_request_served (data : AppendRequest) (w : World)
    (Hopen : appendSubscription (this w) = Open)
    (Hentry : entryComponent (component data) = true) :
  let componentRef := mkRef (mkFactory (component data)) (created w) in
  resolveComponentFactory (component data) = Some (factory componentRef)
  ∧ veryTopRef (this (emit_appendToTop data w)) = veryTopRef (this w) ++ [componentRef]
  ∧ componentType (factory componentRef) = component data
  ∧ calls (emit_appendToTop data w) =
      calls w ++ [Listener_next (append_listener data) (VComponentRef componentRef);
                  Listener_complete (append_listener data)].
Proof.
  pose proof (emit_appendToTop_entry data w Hopen Hentry) as Heq.
  destruct (onAppendToTop_entry data w Hentry) as (w' & Hret & Hthis & _ & Hcalls & _).
  rewrite Hret in Heq. injection Heq as <-.
  simpl. rewrite Hthis, Hcalls. unfold resolveComponentFactory. rewrite Hentry.
  repeat split.
Qed.

(** C5: for every clear request delivered while the clear subscription is
    open, the insertion point holds no instance afterwards and the
    request's listener receives the value [true]. *)
Theorem C5_clear_request_served (data : ClearRequest) (w : World)
    (Hopen : clearSubscription (this w) = Open) :
  veryTopRef (this (emit_clearLayoutTop data w)) = []
  ∧ length (veryTopRef (this (emit_clearLayoutTop data w))) = 0
  ∧ calls (emit_clearLayoutTop data w) =
      calls w ++ [Listener_next (clear_listener data) (VBool true)].
Proof.
  unfold emit_clearLayoutTop. rewrite Hopen, deliver_open.
  unfold onClearLayoutTop. simpl. repeat split.
Qed.

Lemma C4_append_request_witness :
  appendSubscription (this attached) = Open
  ∧ entryComponent (component (mkAppend NbSpinnerComponent 7)) = true
  ∧ veryTopRef (this (emit_appendToTop (mkAppend NbSpinnerComponent 7) attached))
    = [mkRef (mkFactory NbSpinnerComponent) 0]
  ∧ calls (emit_appendToTop (mkAppend NbSpinnerComponent 7) attached)
    = calls attached
      ++ [Listener_next 7 (VComponentRef (mkRef (mkFactory NbSpinnerComponent) 0));
          Listener_complete 7].
Proof.
  split; [reflexivity |]. split; [reflexivity |].
  pose proof (C4_append_request_served (mkAppend NbSpinnerComponent 7) attached
                eq_refl eq_refl) as (_ & Hv & _ & Hc).
  split; [exact Hv | exact Hc].
Defined.

Lemma C5_clear_request_witness :
  clearSubscription
    (this (emit_appendToTop (mkAppend NbSpinnerComponent 7) attached)) = Open
  ∧ veryTopRef (this (emit_appendToTop (mkAppend NbSpinnerComponent 7) attached))
    = [mkRef (mkFactory NbSpinnerComponent) 0]
  ∧ veryTopRef
      (this (emit_clearLayoutTop (mkClear 8)
               (emit_appendToTop (mkAppend NbSpinnerComponent 7) attached))) = [].
Proof.
  split; [vm_compute; reflexivity |]. split; [vm_compute; reflexivity |].
  apply (C5_clear_request_served (mkClear 8)
           (emit_appendToTop (mkAppend NbSpinnerComponent 7) attached)).
  vm_compute. reflexivity.
Defined.

(** ** Resize forwarding (C9) *)

Lemma width_reports_app cs1 cs2 :
  width_reports (cs1 ++ cs2) = width_reports cs1 ++ width_reports cs2.
Proof. apply omap_app. Qed.

Lemma onResize_calls event w :
  calls (onResize event w) =
  calls w ++ [ThemeService_changeWindowWidth (target_innerWidth event)].
Proof. reflexivity. Qed.

Lemma run_dispatch conv tr w al w' :
  dispatch conv true tr w = Some (al, w') → run conv tr w = Some w'.
Proof. intros H. unfold run. rewrite H. reflexivity. Qed.

Lemma dispatch_run conv tr w w' :
  run conv tr w = Some w' → ∃ al, dispatch conv true tr w = Some (al, w').
Proof.
  unfold run. destruct (dispatch conv true tr w) as [[al v] |]; simpl; intros H;
    [| discriminate H].
  injection H as <-. exists al. reflexivity.
Qed.

(** C9: for every sequence of resize events, the handler runs to the end,
    and the calls it adds to the log are exactly one [changeWindowWidth]
    per event, carrying that event's width, in order; so the number of
    width reports grows by the number of events. *)
Theorem C9_resize_forwarded_one_to_one
    (convertToBoolProperty : AttrValue → bool) (events : list ResizeEvent) (w : World) :
  ∃ w', run convertToBoolProperty (map WindowResize events) w = Some w'
        ∧ calls w' = calls w
                     ++ map (λ e, ThemeService_changeWindowWidth (target_innerWidth e)) events
        ∧ width_reports (calls w') = width_reports (calls w) ++ map target_innerWidth events
        ∧ length (width_reports (calls w')) = length (width_reports (calls w)) + length events.
Proof.
  assert (H : ∃ w', dispatch convertToBoolProperty true (map WindowResize events) w
                    = Some (true, w')
                    ∧ calls w' = calls w
                                 ++ map (λ e, ThemeService_changeWindowWidth
                                                (target_innerWidth e)) events).
  { revert w. induction events as [| e events IH]; intros w.
    - exists w. simpl. rewrite app_nil_r. split; reflexivity.
    - destruct (IH (onResize e w)) as (w' & Hrun & Hcalls).
      exists w'. simpl. split; [exact Hrun |].
      rewrite Hcalls, onResize_calls, <- app_assoc. reflexivity. }
  destruct H as (w' & Hrun & Hcalls).
  exists w'. split; [apply (run_dispatch _ _ _ _ _ Hrun) |].
  split; [exact Hcalls |].
  assert (Hrep : width_reports (calls w')
                 = width_reports (calls w) ++ map target_innerWidth events).
  { rewrite Hcalls, width_reports_app. f_equal.
    clear. induction events as [| e events IH]; simpl; [reflexivity |].
    unfold width_reports in *. simpl. rewrite IH. reflexivity. }
  split; [exact Hrep |].
  rewrite Hrep, length_app, length_map. reflexivity.
Qed.

(** ** Destruction: what [ngOnDestroy] does, returning or throwing *)

Lemma unsubscribe_field_cases field set_field w :
  unsubscribe_field field set_field w
  = if assigned (field (this w))
    then Returned (with_this (set_field Closed) w)
    else Thrown w.
Proof. unfold unsubscribe_field. destruct (field (this w)); reflexivity. Qed.

Local Ltac destroy_leaf w :=
  simpl;
  repeat match goal with
         | H : assigned _ = _ |- _ => rewrite ?H; revert H
         end;
  intros; simpl; repeat split; try discriminate; try (intros H; exact H);
  try (destruct (appendSubscription (this w)); [discriminate | |]; intros H; discriminate H).

Lemma ngOnDestroy_outcome_effect w :
  body (world_of (ngOnDestroy_outcome w)) = body w
  ∧ nativeElement (world_of (ngOnDestroy_outcome w)) = nativeElement w
  ∧ hostBindings (world_of (ngOnDestroy_outcome w)) = hostBindings w
  ∧ calls (world_of (ngOnDestroy_outcome w)) = calls w ++ [ThemeService_clearLayoutTop]
  ∧ withScrollValue (this (world_of (ngOnDestroy_outcome w))) = withScrollValue (this w)
  ∧ afterViewInit (this (world_of (ngOnDestroy_outcome w))) = afterViewInit (this w)
  ∧ returned (ngOnDestroy_outcome w) = subscriptions_assigned w
  ∧ (returned (ngOnDestroy_outcome w) = true →
     subscriptions_closed (world_of (ngOnDestroy_outcome w)))
  ∧ (view_pending w = true →
     view_pending (world_of (ngOnDestroy_outcome w)) = true)
  ∧ subscriptions_assigned (world_of (ngOnDestroy_outcome w)) = subscriptions_assigned w.
Proof.
  unfold ngOnDestroy_outcome, subscriptions_assigned, subscriptions_closed, view_pending.
  cbn [and_then]. rewrite unsubscribe_field_cases. cbn -[unsubscribe_field].
  destruct (assigned (themeSubscription (this w))) eqn:H1; cbn -[unsubscribe_field];
    [| destroy_leaf w].
  rewrite unsubscribe_field_cases. cbn -[unsubscribe_field].
  destruct (assigned (appendClassSubscription (this w))) eqn:H2; cbn -[unsubscribe_field];
    [| destroy_leaf w].
  rewrite unsubscribe_field_cases. cbn -[unsubscribe_field].
  destruct (assigned (removeClassSubscription (this w))) eqn:H3; cbn -[unsubscribe_field];
    [| destroy_leaf w].
  rewrite unsubscribe_field_cases. cbn -[unsubscribe_field].
  destruct (assigned (appendSubscription (this w))) eqn:H4; cbn -[unsubscribe_field];
    [| destroy_leaf w].
  rewrite unsubscribe_field_cases. cbn -[unsubscribe_field].
  destruct (assigned (clearSubscription (this w))) eqn:H5; cbn -[unsubscribe_field];
    destroy_leaf w.
Qed.

(** ** What the callbacks do, returning or throwing *)

Lemma renderer_addClass_effect el c w :
  this (world_of (renderer_addClass el c w)) = this w
  ∧ hostBindings (world_of (renderer_addClass el c w)) = hostBindings w
  ∧ calls (world_of (renderer_addClass el c w)) = calls w ++ [Renderer_addClass el c]
  ∧ style (body (world_of (renderer_addClass el c w))) = style (body w)
  ∧ match el with
    | Body => nativeElement (world_of (renderer_addClass el c w)) = nativeElement w
    | NativeElement => body (world_of (renderer_addClass el c w)) = body w
    end.
Proof.
  destruct (valid_token c) eqn:Hc.
  - rewrite renderer_addClass_valid by assumption. destruct el; repeat split.
  - rewrite renderer_addClass_invalid by assumption. destruct el; repeat split.
Qed.

Lemma renderer_removeClass_effect el c w :
  this (world_of (renderer_removeClass el c w)) = this w
  ∧ hostBindings (world_of (renderer_removeClass el c w)) = hostBindings w
  ∧ calls (world_of (renderer_removeClass el c w)) = calls w ++ [Renderer_removeClass el c]
  ∧ style (body (world_of (renderer_removeClass el c w))) = style (body w)
  ∧ match el with
    | Body => nativeElement (world_of (renderer_removeClass el c w)) = nativeElement w
    | NativeElement => body (world_of (renderer_removeClass el c w)) = body w
    end.
Proof.
  destruct (valid_token c) eqn:Hc.
  - rewrite renderer_removeClass_valid by assumption. destruct el; repeat split.
  - rewrite renderer_removeClass_invalid by assumption. destruct el; repeat split.
Qed.

Lemma and_then_world r k :
  world_of (and_then r k) = if returned r then world_of (k (world_of r)) else world_of r.
Proof. destruct r; reflexivity. Qed.

Lemma allowed_theme_add x : renderer_call_allowed (Renderer_addClass Body (themeClass x)) = true.
Proof. apply themeClass_prefix. Qed.

Lemma allowed_theme_remove x :
  renderer_call_allowed (Renderer_removeClass Body (themeClass x)) = true.
Proof. apply themeClass_prefix. Qed.

(** The theme callback, whatever its outcome: it moves the body's classes
    and the log, and what it logs are theme class calls on the body. *)
Lemma onThemeChange_effect theme w :
  same_but_body_classes w (world_of (onThemeChange theme w))
  ∧ ∃ l, calls (world_of (onThemeChange theme w)) = calls w ++ l
         ∧ width_reports l = []
         ∧ Forall (λ c, renderer_call_allowed c = true) l.
Proof.
  unfold onThemeChange, same_but_body_classes. rewrite and_then_world.
  destruct (truthy (previous theme)).
  - pose proof (renderer_removeClass_effect Body
                  (themeClass (interpolate (previous theme))) w)
      as (Ht & Hh & Hc & Hs & Hn).
    destruct (returned (renderer_removeClass Body _ w)).
    + pose proof (renderer_addClass_effect Body (themeClass (name theme))
                    (world_of (renderer_removeClass Body
                                 (themeClass (interpolate (previous theme))) w)))
        as (Ht' & Hh' & Hc' & Hs' & Hn').
      rewrite Ht', Hh', Hc', Hs', Hn', Ht, Hh, Hc, Hs, Hn.
      repeat split. eexists. rewrite <- app_assoc. split; [reflexivity |].
      split; [reflexivity |].
      repeat constructor; [apply allowed_theme_remove | apply allowed_theme_add].
    + rewrite Ht, Hh, Hc, Hs, Hn. repeat split. eexists. split; [reflexivity |].
      split; [reflexivity |]. repeat constructor. apply allowed_theme_remove.
  - simpl.
    pose proof (renderer_addClass_effect Body (themeClass (name theme)) w)
      as (Ht & Hh & Hc & Hs & Hn).
    rewrite Ht, Hh, Hc, Hs, Hn. repeat split. eexists. split; [reflexivity |].
    split; [reflexivity |]. repeat constructor. apply allowed_theme_add.
Qed.

(** What a delivery does to a subscription field: nothing, or it closes
    the open subscription of a callback that threw. *)
Lemma unsubscribe_on_throw_this close r :
  this (unsubscribe_on_throw close r) = this (world_of r)
  ∨ (returned r = false ∧ this (unsubscribe_on_throw close r) = close (this (world_of r))).
Proof. destruct r; simpl; [left | right]; repeat split. Qed.

Lemma unsubscribe_on_throw_frame close r :
  body (unsubscribe_on_throw close r) = body (world_of r)
  ∧ nativeElement (unsubscribe_on_throw close r) = nativeElement (world_of r)
  ∧ hostBindings (unsubscribe_on_throw close r) = hostBindings (world_of r)
  ∧ calls (unsubscribe_on_throw close r) = calls (world_of r).
Proof. destruct r; repeat split. Qed.

Lemma emit_themeChange_effect theme w :
  (this (emit_themeChange theme w) = this w
   ∨ (themeSubscription (this w) = Open ∧ theme_ok theme = false
      ∧ this (emit_themeChange theme w) = set_themeSubscription Closed (this w)))
  ∧ style (body (emit_themeChange theme w)) = style (body w)
  ∧ nativeElement (emit_themeChange theme w) = nativeElement w
  ∧ hostBindings (emit_themeChange theme w) = hostBindings w
  ∧ ∃ l, calls (emit_themeChange theme w) = calls w ++ l
         ∧ width_reports l = []
         ∧ Forall (λ c, renderer_call_allowed c = true) l.
Proof.
  unfold emit_themeChange.
  destruct (themeSubscription (this w)) eqn:Hsub; simpl;
    try (split; [left; reflexivity |]; repeat split;
         exists []; rewrite app_nil_r; repeat split; constructor).
  destruct (onThemeChange_effect theme w) as ((Ht & Hs & Hn & Hh) & l & Hc & Hw & Ha).
  destruct (unsubscribe_on_throw_frame (set_themeSubscription Closed) (onThemeChange theme w))
    as (Hb' & Hn' & Hh' & Hc').
  rewrite Hb', Hn', Hh', Hc', Hs, Hn, Hh.
  split; [| repeat split; exists l; repeat split; assumption].
  destruct (unsubscribe_on_throw_this (set_themeSubscription Closed) (onThemeChange theme w))
    as [Hsame | [Hthrown Hclosed]].
  - left. rewrite Hsame, Ht. reflexivity.
  - right. split; [reflexivity |]. rewrite Hclosed, Ht. split; [| reflexivity].
    destruct (theme_ok theme) eqn:Hok; [| reflexivity].
    destruct (onThemeChange_ok theme w Hok) as (w' & Hret & _).
    rewrite Hret in Hthrown. discriminate Hthrown.
Qed.

Lemma emit_appendLayoutClass_effect className w :
  (this (emit_appendLayoutClass className w) = this w
   ∨ (appendClassSubscription (this w) = Open ∧ valid_token className = false
      ∧ this (emit_appendLayoutClass className w)
        = set_appendClassSubscription Closed (this w)))
  ∧ body (emit_appendLayoutClass className w) = body w
  ∧ hostBindings (emit_appendLayoutClass className w) = hostBindings w
  ∧ ∃ l, calls (emit_appendLayoutClass className w) = calls w ++ l
         ∧ width_reports l = []
         ∧ Forall (λ c, renderer_call_allowed c = true) l.
Proof.
  unfold emit_appendLayoutClass, onAppendLayoutClass.
  destruct (appendClassSubscription (this w)) eqn:Hsub; simpl;
    try (split; [left; reflexivity |]; repeat split;
         exists []; rewrite app_nil_r; repeat split; constructor).
  destruct (valid_token className) eqn:Hc.
  - rewrite renderer_addClass_valid by assumption. simpl.
    split; [left; reflexivity |]. repeat split.
    eexists. split; [reflexivity |]. split; [reflexivity |]. repeat constructor.
  - rewrite renderer_addClass_invalid by assumption. simpl.
    split; [right; repeat split |]. repeat split.
    eexists. split; [reflexivity |]. split; [reflexivity |]. repeat constructor.
Qed.

Lemma emit_removeLayoutClass_effect className w :
  (this (emit_removeLayoutClass className w) = this w
   ∨ (removeClassSubscription (this w) = Open ∧ valid_token className = false
      ∧ this (emit_removeLayoutClass className w)
        = set_removeClassSubscription Closed (this w)))
  ∧ body (emit_removeLayoutClass className w) = body w
  ∧ hostBindings (emit_removeLayoutClass className w) = hostBindings w
  ∧ ∃ l, calls (emit_removeLayoutClass className w) = calls w ++ l
         ∧ width_reports l = []
         ∧ Forall (λ c, renderer_call_allowed c = true) l.
Proof.
  unfold emit_removeLayoutClass, onRemoveLayoutClass.
  destruct (removeClassSubscription (this w)) eqn:Hsub; simpl;
    try (split; [left; reflexivity |]; repeat split;
         exists []; rewrite app_nil_r; repeat split; constructor).
  destruct (valid_token className) eqn:Hc.
  - rewrite renderer_removeClass_valid by assumption. simpl.
    split; [left; reflexivity |]. repeat split.
    eexists. split; [reflexivity |]. split; [reflexivity |]. repeat constructor.
  - rewrite renderer_removeClass_invalid by assumption. simpl.
    split; [right; repeat split |]. repeat split.
    eexists. split; [reflexivity |]. split; [reflexivity |]. repeat constructor.
Qed.

Lemma emit_appendToTop_effect data w :
  (emit_appendToTop data w = w
   ∨ (appendSubscription (this w) = Open ∧ entryComponent (component data) = false
      ∧ emit_appendToTop data w = with_this (set_appendSubscription Closed) w)
   ∨ (appendSubscription (this w) = Open ∧ entryComponent (component data) = true
      ∧ this (emit_appendToTop data w)
        = set_veryTopRef
            (veryTopRef (this w) ++ [mkRef (mkFactory (component data)) (created w)])
            (this w)))
  ∧ body (emit_appendToTop data w) = body w
  ∧ nativeElement (emit_appendToTop data w) = nativeElement w
  ∧ hostBindings (emit_appendToTop data w) = hostBindings w
  ∧ ∃ l, calls (emit_appendToTop data w) = calls w ++ l
         ∧ width_reports l = []
         ∧ Forall (λ c, renderer_call_allowed c = true) l.
Proof.
  unfold emit_appendToTop.
  destruct (appendSubscription (this w)) eqn:Hsub; simpl;
    try (split; [left; reflexivity |]; repeat split;
         exists []; rewrite app_nil_r; repeat split; constructor).
  destruct (entryComponent (component data)) eqn:Hentry.
  - destruct (onAppendToTop_entry data w Hentry)
      as (w' & Hret & Hthis & _ & Hcalls & Hb & Hn & Hh).
    rewrite Hret. simpl. rewrite Hb, Hn, Hh, Hcalls.
    split; [right; right; repeat split; exact Hthis |]. repeat split.
    eexists. split; [reflexivity |]. split; [reflexivity |]. repeat constructor.
  - rewrite onAppendToTop_no_factory by assumption. simpl.
    split; [right; left; repeat split |]. repeat split.
    exists []. rewrite app_nil_r. repeat split. constructor.
Qed.

Lemma emit_clearLayoutTop_effect data w :
  (emit_clearLayoutTop data w = w
   ∨ (clearSubscription (this w) = Open
      ∧ this (emit_clearLayoutTop data w) = set_veryTopRef [] (this w)))
  ∧ body (emit_clearLayoutTop data w) = body w
  ∧ nativeElement (emit_clearLayoutTop data w) = nativeElement w
  ∧ hostBindings (emit_clearLayoutTop data w) = hostBindings w
  ∧ ∃ l, calls (emit_clearLayoutTop data w) = calls w ++ l
         ∧ width_reports l = []
         ∧ Forall (λ c, renderer_call_allowed c = true) l.
Proof.
  unfold emit_clearLayoutTop.
  destruct (clearSubscription (this w)) eqn:Hsub; simpl;
    try (split; [left; reflexivity |]; repeat split;
         exists []; rewrite app_nil_r; repeat split; constructor).
  split; [right; repeat split |]. repeat split.
  eexists. split; [reflexivity |]. split; [reflexivity |]. repeat constructor.
Qed.

(** ** Executions: composition and what every step keeps *)

Lemma dispatch_app conv tr1 tr2 al w :
  dispatch conv al (tr1 ++ tr2) w
  = dispatch conv al tr1 w ≫= λ p, dispatch conv p.1 tr2 p.2.
Proof.
  revert al w. induction tr1 as [| a tr1 IH]; intros al w; simpl.
  - reflexivity.
  - destruct (al || is_delivery a).
    + destruct (step conv a w) as [w1 |]; simpl; [apply IH | reflexivity].
    + destruct (is_resize a); [apply IH | reflexivity].
Qed.

Lemma all_prefixed_forallb (f : Action → bool) hist tr :
  all_prefixed (λ _ a, f a) hist tr = forallb f tr.
Proof.
  revert hist. induction tr as [| a tr IH]; intros hist; simpl.
  - reflexivity.
  - rewrite IH. reflexivity.
Qed.

Lemma all_prefixed_true hist tr : all_prefixed (λ _ _, true) hist tr = true.
Proof.
  revert hist. induction tr as [| a tr IH]; intros hist; simpl; [reflexivity | apply IH].
Qed.

(** Induction along an execution, with the actions gone by at hand. *)
Lemma dispatch_invariant conv
    (I : list Action → bool → World → Prop) (Q : list Action → Action → bool) :
  (∀ hist a al w w',
      I hist al w → Q hist a = true → al || is_delivery a = true →
      step conv a w = Some w' → I (hist ++ [a]) (al && negb (destroys a w)) w') →
  (∀ hist a al w,
      I hist al w → Q hist a = true → al || is_delivery a = false → is_resize a = true →
      I (hist ++ [a]) al w) →
  ∀ tr hist al w al' w',
    I hist al w → all_prefixed Q hist tr = true →
    dispatch conv al tr w = Some (al', w') → I (hist ++ tr) al' w'.
Proof.
  intros Hstep Hskip. induction tr as [| a tr IH]; intros hist al w al' w' HI HQ Hrun;
    simpl in Hrun, HQ.
  - injection Hrun as <- <-. rewrite app_nil_r. exact HI.
  - apply andb_prop in HQ as [Ha HQ].
    replace (hist ++ a :: tr) with ((hist ++ [a]) ++ tr)
      by (rewrite <- app_assoc; reflexivity).
    destruct (al || is_delivery a) eqn:Hd.
    + destruct (step conv a w) as [w1 |] eqn:Hs; simpl in Hrun; [| discriminate Hrun].
      apply (IH (hist ++ [a]) (al && negb (destroys a w)) w1 al' w');
        [| exact HQ | exact Hrun].
      apply (Hstep hist a al w w1); assumption.
    + destruct (is_resize a) eqn:Hr; [| discriminate Hrun].
      apply (IH (hist ++ [a]) al w al' w'); [| exact HQ | exact Hrun].
      apply (Hskip hist a al w); assumption.
Qed.

Lemma existsb_snoc {A} (f : A → bool) (l : list A) (x : A) :
  existsb f (l ++ [x]) = existsb f l || f x.
Proof. rewrite existsb_app. simpl. rewrite orb_false_r. reflexivity. Qed.

Lemma notify_all_frame v os w :
  this (foldl (λ w o, notify o v w) w os) = this w
  ∧ body (foldl (λ w o, notify o v w) w os) = body w
  ∧ nativeElement (foldl (λ w o, notify o v w) w os) = nativeElement w
  ∧ hostBindings (foldl (λ w o, notify o v w) w os) = hostBindings w
  ∧ ∃ l, calls (foldl (λ w o, notify o v w) w os) = calls w ++ l
         ∧ width_reports l = []
         ∧ Forall (λ c, renderer_call_allowed c = true) l.
Proof.
  revert w. induction os as [| o os IH]; intros w; simpl.
  - repeat split. exists []. rewrite app_nil_r. repeat split. constructor.
  - destruct (IH (notify o v w)) as (Ht & Hb & Hn & Hh & l & Hc & Hw & Ha).
    rewrite Ht, Hb, Hn, Hh, Hc. destruct o. simpl. repeat split.
    exists (Promise_resolve :: l). rewrite <- app_assoc. repeat split.
    + exact Hw.
    + constructor; [reflexivity | exact Ha].
Qed.

Lemma ngAfterViewInit_effect w :
  this (ngAfterViewInit w)
  = set_afterViewInit (mkSubject (Some true) (observers (afterViewInit (this w))))
      (set_clearSubscription Open (set_appendSubscription Open (this w)))
  ∧ body (ngAfterViewInit w) = body w
  ∧ nativeElement (ngAfterViewInit w) = nativeElement w
  ∧ hostBindings (ngAfterViewInit w) = hostBindings w
  ∧ ∃ l, calls (ngAfterViewInit w) = calls w ++ l
         ∧ width_reports l = []
         ∧ Forall (λ c, renderer_call_allowed c = true) l.
Proof.
  unfold ngAfterViewInit, afterViewInit_next.
  match goal with
  | |- context [foldl ?f ?w0 ?os] =>
      destruct (notify_all_frame (Some true) os w0) as (Ht & Hb & Hn & Hh & l & Hc & Hw & Ha)
  end.
  rewrite Ht, Hb, Hn, Hh, Hc. repeat split. exists l. repeat split; assumption.
Qed.

Lemma detectChanges_frame w :
  this (detectChanges w) = this w
  ∧ body (detectChanges w) = body w
  ∧ calls (detectChanges w) = calls w
  ∧ style (nativeElement (detectChanges w)) = style (nativeElement w).
Proof.
  unfold detectChanges, bind_class.
  destruct (hostBindings w) as [[old_windowMode old_withScroll] |]; simpl.
  - destruct (negb (Bool.eqb old_windowMode (windowModeValue (this w)))),
      (negb (Bool.eqb old_withScroll (withScrollValue (this w)))); repeat split.
  - repeat split.
Qed.

Lemma step_view_init conv w w' :
  step conv NgAfterViewInit w = Some w' → view_pending w = true ∧ w' = ngAfterViewInit w.
Proof.
  simpl. destruct (view_pending w); intros H; [| discriminate H].
  injection H as <-. split; reflexivity.
Qed.

(** Only [ngAfterViewInit] ends the pending phase. *)
Lemma step_view_pending conv a w w' :
  view_pending w = true → is_view_init a = false →
  step conv a w = Some w' → view_pending w' = true.
Proof.
  intros Hp Ha Hs. unfold view_pending in *.
  destruct a; try discriminate Ha; simpl in Hs; injection Hs as <-.
  - apply (ngOnDestroy_outcome_effect w). exact Hp.
  - rewrite (proj1 (detectChanges_frame w)). exact Hp.
  - exact Hp.
  - unfold set_windowMode, set_withScroll. simpl.
    destruct (conv (AttrBool true)); exact Hp.
  - unfold set_withScroll. simpl. destruct (conv val); exact Hp.
  - destruct (emit_themeChange_effect theme w) as ([-> | (_ & _ & ->)] & _); exact Hp.
  - destruct (emit_appendLayoutClass_effect className w) as ([-> | (_ & _ & ->)] & _);
      exact Hp.
  - destruct (emit_removeLayoutClass_effect className w) as ([-> | (_ & _ & ->)] & _);
      exact Hp.
  - destruct (emit_appendToTop_effect data w)
      as ([-> | [(Hopen & _) | (Hopen & _)]] & _); [exact Hp | |];
      rewrite Hopen in Hp; discriminate Hp.
  - destruct (emit_clearLayoutTop_effect data w) as ([-> | (Hopen & _)] & _); [exact Hp |].
    rewrite Hopen in Hp. destruct (appendSubscription (this w)); discriminate Hp.
  - exact Hp.
Qed.

Lemma constructor_view_pending innerWidth b h :
  view_pending (constructor innerWidth (new_world b h)) = true.
Proof. reflexivity. Qed.

(** A request delivered while the view is pending leaves the world as it
    is. *)
Lemma request_dropped conv a w :
  view_pending w = true → is_request a = true → step conv a w = Some w.
Proof.
  unfold view_pending. intros Hp Ha.
  destruct a; try discriminate Ha; simpl;
    [unfold emit_appendToTop | unfold emit_clearLayoutTop];
    destruct (appendSubscription (this w)), (clearSubscription (this w));
    try discriminate Hp; reflexivity.
Qed.

(** ** Requests before the view is initialised (C7) *)

(** C7: take any execution of a freshly constructed component in which
    [ngAfterViewInit] has not run yet.  An append or clear request
    delivered at that point is not serviced: the world stays exactly as it
    was (no instance is created, the insertion point is not cleared,
    nothing is sent on the request's listener).  Nor is it kept for later:
    whatever happens afterwards, the execution ends as if the request had
    never been delivered. *)
Theorem C7_request_before_view_init_dropped
    (convertToBoolProperty : AttrValue → bool) (innerWidth : Z) (b h : Element)
    (pre post : list Action) (request : Action) (w : World)
    (Hrequest : is_request request = true)
    (Hpre : forallb (λ a, negb (is_view_init a)) pre = true)
    (Hrun : run convertToBoolProperty pre (constructor innerWidth (new_world b h)) = Some w) :
  step convertToBoolProperty request w = Some w
  ∧ run convertToBoolProperty (pre ++ request :: post) (constructor innerWidth (new_world b h))
    = run convertToBoolProperty (pre ++ post) (constructor innerWidth (new_world b h)).
Proof.
  apply dispatch_run in Hrun as [al Hrun].
  assert (Hp : view_pending w = true).
  { apply (dispatch_invariant convertToBoolProperty
             (λ _ _ v, view_pending v = true) (λ _ a, negb (is_view_init a)))
      with (tr := pre) (hist := []) (al := true)
           (w := constructor innerWidth (new_world b h)) (al' := al);
      [| | apply constructor_view_pending | rewrite all_prefixed_forallb; exact Hpre
       | exact Hrun].
    - intros hist a al0 v v' Hv Ha _ Hs.
      apply (step_view_pending convertToBoolProperty a v v' Hv); [| exact Hs].
      destruct (is_view_init a); [discriminate Ha | reflexivity].
    - intros hist a al0 v Hv _ _ _. exact Hv. }
  pose proof (request_dropped convertToBoolProperty request w Hp Hrequest) as Hdrop.
  split; [exact Hdrop |].
  assert (Hdelivery : is_delivery request = true).
  { destruct request; try discriminate Hrequest; reflexivity. }
  assert (Hnot_destroy : destroys request w = false).
  { destruct request; try discriminate Hrequest; reflexivity. }
  unfold run. rewrite !dispatch_app, Hrun. simpl.
  rewrite Hdelivery, orb_true_r, Hdrop. simpl.
  rewrite Hnot_destroy, andb_true_r. reflexivity.
Qed.

Lemma C7_request_before_view_init_witness :
  is_request (AppendToTop (mkAppend NbSpinnerComponent 7)) = true
  ∧ forallb (λ a, negb (is_view_init a)) [ThemeChange theme_a] = true
  ∧ run convertToBoolProperty_model [ThemeChange theme_a] constructed
    = Some (emit_themeChange theme_a constructed)
  ∧ run convertToBoolProperty_model
    [ThemeChange theme_a; AppendToTop (mkAppend NbSpinnerComponent 7);
     NgAfterViewInit; ClearLayoutTop (mkClear 8)] constructed
  = run convertToBoolProperty_model
      [ThemeChange theme_a; NgAfterViewInit; ClearLayoutTop (mkClear 8)] constructed.
Proof.
  assert (Hrun : run convertToBoolProperty_model [ThemeChange theme_a] constructed
                 = Some (emit_themeChange theme_a constructed)) by reflexivity.
  split; [reflexivity |]. split; [reflexivity |]. split; [exact Hrun |].
  apply (C7_request_before_view_init_dropped convertToBoolProperty_model 1024 blank blank
           [ThemeChange theme_a] [NgAfterViewInit; ClearLayoutTop (mkClear 8)]
           (AppendToTop (mkAppend NbSpinnerComponent 7))
           (emit_themeChange theme_a constructed)
           eq_refl eq_refl Hrun).
Defined.

(** ** Destruction (C8) *)

Lemma ngOnDestroy_returned w :
  ngOnDestroy w
  = if returned (ngOnDestroy_outcome w) then Some (world_of (ngOnDestroy_outcome w)) else None.
Proof. unfold ngOnDestroy. destruct (ngOnDestroy_outcome w); reflexivity. Qed.






(** ** The loader promise (C2) *)

(** C2 fails on the code.  [afterViewInit$] is a [BehaviorSubject] holding
    [null], so the subscription made inside the promise executor calls
    [resolve()] at once: when the constructor returns, for any window width
    and any document, the view is still pending, and the promise handed to
    [registerLoader] was already fulfilled when it was registered.  The
    [next(true)] of [ngAfterViewInit] only calls [resolve()] a second
    time. *)
Theorem C2_loader_resolved_by_constructor (innerWidth : Z) (b h : Element) :
  view_pending (constructor innerWidth (new_world b h)) = true
  ∧ loader (constructor innerWidth (new_world b h)) = Fulfilled
  ∧ calls (constructor innerWidth (new_world b h))
    = [Promise_resolve; SpinnerService_registerLoader Fulfilled;
       SpinnerService_load; ThemeService_changeWindowWidth innerWidth]
  ∧ calls (ngAfterViewInit (constructor innerWidth (new_world b h)))
    = calls (constructor innerWidth (new_world b h)) ++ [Promise_resolve].
Proof. split; [| split; [| split]]; vm_compute; reflexivity. Qed.

(** * Further properties of the component *)

(** ** Theme changes, beyond the two-event scenario *)

Lemma emit_themeChange_throws theme w :
  themeSubscription (this w) = Open → theme_ok theme = false →
  themeSubscription (this (emit_themeChange theme w)) = Closed.
Proof.
  intros Hopen Hok. unfold emit_themeChange. rewrite Hopen. simpl.
  destruct (onThemeChange_throws theme w Hok) as (w' & -> & _). reflexivity.
Qed.

Lemma emit_themeChange_step theme w :
  themeSubscription (this w) = Open → theme_ok theme = true →
  classList (body (emit_themeChange theme w))
  = token_add (themeClass (name theme))
      (if truthy (previous theme)
       then token_remove (themeClass (interpolate (previous theme))) (classList (body w))
       else classList (body w))
  ∧ themeSubscription (this (emit_themeChange theme w)) = Open.
Proof.
  intros Hopen Hok.
  pose proof (emit_themeChange_ok theme w Hopen Hok) as Heq.
  destruct (onThemeChange_ok theme w Hok) as (w' & Hret & _ & Hbody & Hthis & _).
  rewrite Hret in Heq. injection Heq as <-. rewrite Hthis. split; assumption.
Qed.

(** X1: Delivering the same theme event a second time leaves the body as the
    first delivery left it, whatever the event and the body's classes. *)
Theorem themeChange_twice_same_body (theme : ThemeEvent) (w : World)
    (Hopen : themeSubscription (this w) = Open) :
  classList (body (emit_themeChange theme (emit_themeChange theme w)))
  = classList (body (emit_themeChange theme w))
  ∧ style (body (emit_themeChange theme (emit_themeChange theme w))) = style (body w).
Proof.
  split.
  - destruct (theme_ok theme) eqn:Hok.
    + destruct (emit_themeChange_step theme w Hopen Hok) as [Hfirst Hopen'].
      destruct (emit_themeChange_step theme (emit_themeChange theme w) Hopen' Hok)
        as [Hsecond _].
      rewrite Hsecond, Hfirst.
      destruct (truthy (previous theme)).
      * destruct (decide (themeClass (interpolate (previous theme))
                          = themeClass (name theme))) as [Heq | Hne].
        -- rewrite Heq, token_remove_add_same, token_remove_idemp. reflexivity.
        -- rewrite token_remove_add_ne by assumption.
           rewrite token_remove_idemp. apply token_add_idemp.
      * apply token_add_idemp.
    + pose proof (emit_themeChange_throws theme w Hopen Hok) as Hclosed.
      unfold emit_themeChange at 1. rewrite Hclosed. reflexivity.
  - destruct (emit_themeChange_effect theme (emit_themeChange theme w)) as (_ & Hs & _).
    destruct (emit_themeChange_effect theme w) as (_ & Hs' & _).
    rewrite Hs, Hs'. reflexivity.
Qed.

Lemma themeChange_twice_witness :
  themeSubscription (this constructed) = Open
  ∧ classList (body (emit_themeChange theme_b (emit_themeChange theme_b constructed)))
    = classList (body (emit_themeChange theme_b constructed)).
Proof.
  split; [reflexivity |].
  apply (themeChange_twice_same_body theme_b constructed eq_refl).
Defined.

(** ** Destruction, beyond the claims *)

(** X8: [ngOnDestroy] throws exactly when one of the five subscription fields
    was never assigned.  In particular it throws on a component whose view
    is still pending, where [appendSubscription] and [clearSubscription]
    are undefined. *)
Theorem ngOnDestroy_throws_iff_unassigned (w : World) :
  (ngOnDestroy w = None ↔ subscriptions_assigned w = false)
  ∧ (view_pending w = true → ngOnDestroy w = None).
Proof.
  rewrite ngOnDestroy_returned.
  destruct (ngOnDestroy_outcome_effect w) as (_ & _ & _ & _ & _ & _ & -> & _).
  split.
  - destruct (subscriptions_assigned w); split; intros H; try discriminate H; reflexivity.
  - intros Hp. unfold view_pending in Hp. unfold subscriptions_assigned.
    destruct (appendSubscription (this w)); try discriminate Hp.
    rewrite andb_false_r. reflexivity.
Qed.

Lemma ngOnDestroy_throws_witness :
  view_pending constructed = true ∧ ngOnDestroy constructed = None.
Proof.
  split; [reflexivity |].
  apply (ngOnDestroy_throws_iff_unassigned constructed). reflexivity.
Defined.

Lemma ngOnDestroy_outcome_closed w :
  subscriptions_closed w →
  ngOnDestroy_outcome w = Returned (themeService_clearLayoutTop w).
Proof.
  intros (Ht & Hac & Hrc & Ha & Hc).
  destruct w as [[c wm ws top avi s1 s2 s3 s4 s5] b h hb l n cs].
  simpl in Ht, Hac, Hrc, Ha, Hc. subst. reflexivity.
Qed.

(** X9: Destroying twice is harmless: when [ngOnDestroy] returns, a second
    call returns too, and all it does is send the theme service one more
    [clearLayoutTop]. *)
Theorem ngOnDestroy_twice (w w' : World) (Hdestroy : ngOnDestroy w = Some w') :
  ngOnDestroy w' = Some (themeService_clearLayoutTop w').
Proof.
  rewrite ngOnDestroy_returned in Hdestroy.
  destruct (returned (ngOnDestroy_outcome w)) eqn:Hret; [| discriminate Hdestroy].
  injection Hdestroy as <-.
  destruct (ngOnDestroy_outcome_effect w) as (_ & _ & _ & _ & _ & _ & _ & Hclosed & _).
  unfold ngOnDestroy. rewrite (ngOnDestroy_outcome_closed _ (Hclosed Hret)). reflexivity.
Qed.

Lemma ngOnDestroy_twice_witness :
  ∃ w', ngOnDestroy attached = Some w'
        ∧ ngOnDestroy w' = Some (themeService_clearLayoutTop w').
Proof.
  destruct (ngOnDestroy attached) as [w' |] eqn:Hdestroy.
  - exists w'. split; [reflexivity |].
    apply (ngOnDestroy_twice attached w' Hdestroy).
  - vm_compute in Hdestroy. discriminate Hdestroy.
Defined.

(** ** Chains of theme changes *)

Lemma valid_token_name (x : string) :
  valid_token x = true → truthy (Some x) = true ∧ has_whitespace x = false.
Proof.
  unfold valid_token. intros H. apply andb_prop in H as [Hne Hws].
  split; [exact Hne |]. apply negb_true_iff. exact Hws.
Qed.

(** X2: A chained run of theme changes keeps exactly one theme class on the
    body.  Let the body carry the classes [others], none of them a theme
    class, followed by the class of the theme in force (if there is one,
    its name is a valid token).  After any chained run of theme changes
    with valid names, delivered to the open theme subscription, it carries
    [others], unchanged and in the same order, followed by the class of
    the last theme alone, and the subscription is still open. *)
Theorem themeChanges_keep_one_theme_class
    (themes : list ThemeEvent) (current : option string) (others : list string) (w : World)
    (Hopen : themeSubscription (this w) = Open)
    (Hchained : chained current themes = true)
    (Hcurrent : ∀ x, current = Some x → valid_token x = true)
    (Hothers : ∀ x, themeClass x ∉ others)
    (Hbody : classList (body w) = others ++ theme_classes current) :
  classList (body (emit_themeChanges themes w))
  = others ++ theme_classes (last_theme current themes)
  ∧ themeSubscription (this (emit_themeChanges themes w)) = Open.
Proof.
  unfold emit_themeChanges, last_theme.
  revert current w Hopen Hchained Hcurrent Hbody.
  induction themes as [| theme themes IH]; intros current w Hopen Hchained Hcurrent Hbody.
  - split; [exact Hbody | exact Hopen].
  - simpl in Hchained.
    apply andb_prop in Hchained as [Hchained Hrest].
    apply andb_prop in Hchained as [Hprev Hname].
    apply bool_decide_eq_true in Hprev.
    destruct (valid_token_name _ Hname) as [_ Hname_ws].
    assert (Hok : theme_ok theme = true).
    { unfold theme_ok. rewrite Hname_ws, Hprev.
      destruct current as [x |]; [| reflexivity].
      destruct (valid_token_name x (Hcurrent x eq_refl)) as [Ht Hw].
      rewrite Ht. simpl interpolate. rewrite Hw. reflexivity. }
    destruct (emit_themeChange_step theme w Hopen Hok) as [Hstep Hopen'].
    simpl. apply IH.
    + exact Hopen'.
    + exact Hrest.
    + intros x Hx. injection Hx as <-. exact Hname.
    + rewrite Hstep, Hprev, Hbody. simpl theme_classes.
      destruct current as [x |].
      * destruct (valid_token_name x (Hcurrent x eq_refl)) as [-> _].
        simpl interpolate. simpl theme_classes.
        rewrite token_remove_app, token_remove_single, app_nil_r.
        rewrite token_remove_absent by apply Hothers.
        apply token_add_absent, Hothers.
      * simpl. rewrite app_nil_r. apply token_add_absent, Hothers.
Qed.

Lemma themeChanges_keep_one_theme_class_witness :
  chained None [theme_a; theme_b; mkThemeEvent "a" (Some "b")] = true
  ∧ classList (body (emit_themeChanges [theme_a; theme_b; mkThemeEvent "a" (Some "b")]
                       (with_element Body (λ e, mkElement ["pace-done"] (style e))
                          constructed)))
    = ["pace-done"; "nb-theme-a"].
Proof.
  split; [reflexivity |].
  apply (themeChanges_keep_one_theme_class
           [theme_a; theme_b; mkThemeEvent "a" (Some "b")] None ["pace-done"]
           (with_element Body (λ e, mkElement ["pace-done"] (style e)) constructed)).
  - reflexivity.
  - reflexivity.
  - intros x Hx. discriminate Hx.
  - intros x Hin. apply list_elem_of_singleton in Hin. discriminate Hin.
  - reflexivity.
Defined.

(** X3: A theme whose name is the empty string is never cleaned up: the class
    [nb-theme-] it puts on the body is still there after the next theme
    change, because an empty [previous] is falsy and nothing is removed.
    This is so for every next theme whose name has no whitespace and every
    earlier theme that is absent, empty or free of whitespace, so that
    neither delivery throws. *)
Theorem themeChange_empty_name_class_stays
    (earlier : option string) (next : string) (w : World)
    (Hopen : themeSubscription (this w) = Open)
    (Hearlier : theme_ok (mkThemeEvent EmptyString earlier) = true)
    (Hnext : has_whitespace next = false) :
  themeClass EmptyString
  ∈ classList (body (emit_themeChange (mkThemeEvent next (Some EmptyString))
                       (emit_themeChange (mkThemeEvent EmptyString earlier) w)))
  ∧ themeClass next
    ∈ classList (body (emit_themeChange (mkThemeEvent next (Some EmptyString))
                         (emit_themeChange (mkThemeEvent EmptyString earlier) w))).
Proof.
  destruct (emit_themeChange_step (mkThemeEvent EmptyString earlier) w Hopen Hearlier)
    as [Hfirst Hopen'].
  assert (Hok : theme_ok (mkThemeEvent next (Some EmptyString)) = true).
  { unfold theme_ok. simpl. rewrite Hnext. reflexivity. }
  destruct (emit_themeChange_step (mkThemeEvent next (Some EmptyString)) _ Hopen' Hok)
    as [Hsecond _].
  rewrite Hsecond. simpl truthy. cbv iota. simpl name.
  split.
  - apply token_add_spec. right. rewrite Hfirst. apply token_add_spec. left. reflexivity.
  - apply token_add_spec. left. reflexivity.
Qed.

Lemma themeChange_empty_name_witness :
  themeSubscription (this constructed) = Open
  ∧ theme_ok (mkThemeEvent EmptyString None) = true
  ∧ has_whitespace "b" = false
  ∧ "nb-theme-"
    ∈ classList (body (emit_themeChange (mkThemeEvent "b" (Some EmptyString))
                         (emit_themeChange (mkThemeEvent EmptyString None) constructed))).
Proof.
  split; [reflexivity |]. split; [reflexivity |]. split; [reflexivity |].
  apply (themeChange_empty_name_class_stays None "b" constructed eq_refl eq_refl eq_refl).
Defined.

(** ** Layout classes on the host element *)

Lemma bind_class_other (c x : string) (write value : bool) (e : Element) :
  x ≠ c → x ∈ classList (bind_class c write value e) ↔ x ∈ classList e.
Proof.
  intros Hne. unfold bind_class. destruct write; [| reflexivity].
  destruct value; simpl.
  - rewrite token_add_spec. tauto.
  - rewrite token_remove_spec. tauto.
Qed.

(** Change detection leaves the classes it does not bind where they are. *)
Lemma detectChanges_other_classes (x : string) (w : World) :
  x ∉ ["window-mode"; "with-scroll"] →
  x ∈ classList (nativeElement (detectChanges w)) ↔ x ∈ classList (nativeElement w).
Proof.
  intros Hx. rewrite !not_elem_of_cons in Hx. destruct Hx as (Hwm & Hws & _).
  unfold detectChanges.
  destruct (hostBindings w) as [[old_windowMode old_withScroll] |]; cbn -[bind_class];
    rewrite !bind_class_other by assumption; reflexivity.
Qed.

(** X4: Appending a layout class that is a valid token and then removing it,
    in two deliveries one after the other: the class is on the host
    element in between (appending it twice changes nothing more), it is
    gone afterwards, and every other class, whoever put it on the host, is
    there afterwards exactly when it was there before.  If the class was
    not there at the start, the host's class list is back to what it
    was.  An appended class other than the two the host bindings manage
    ([window-mode], [with-scroll]) is still on the host after change
    detection. *)
Theorem layoutClass_append_then_remove (className : string) (w : World)
    (Happend : appendClassSubscription (this w) = Open)
    (Hremove : removeClassSubscription (this w) = Open)
    (Hvalid : valid_token className = true) :
  className ∈ classList (nativeElement (emit_appendLayoutClass className w))
  ∧ nativeElement (emit_appendLayoutClass className (emit_appendLayoutClass className w))
    = nativeElement (emit_appendLayoutClass className w)
  ∧ (className
     ∉ classList (nativeElement (emit_removeLayoutClass className
                                   (emit_appendLayoutClass className w))))
  ∧ (∀ x, x ≠ className →
          x ∈ classList (nativeElement (emit_removeLayoutClass className
                                          (emit_appendLayoutClass className w)))
          ↔ x ∈ classList (nativeElement w))
  ∧ (className ∉ classList (nativeElement w) →
     classList (nativeElement (emit_removeLayoutClass className
                                 (emit_appendLayoutClass className w)))
     = classList (nativeElement w))
  ∧ (className ∉ ["window-mode"; "with-scroll"] →
     className
     ∈ classList (nativeElement (detectChanges (emit_appendLayoutClass className w)))).
Proof.
  assert (Hkept : className ∉ ["window-mode"; "with-scroll"] →
            className ∈ classList (nativeElement (emit_appendLayoutClass className w)) →
            className
            ∈ classList (nativeElement (detectChanges (emit_appendLayoutClass className w)))).
  { intros Hother Hin. apply detectChanges_other_classes; assumption. }
  assert (Ha : ∀ v, appendClassSubscription (this v) = Open →
                    emit_appendLayoutClass className v
                    = with_element NativeElement
                        (λ e, mkElement (token_add className (classList e)) (style e))
                        (record (Renderer_addClass NativeElement className) v)).
  { intros v Hv. unfold emit_appendLayoutClass, onAppendLayoutClass. rewrite Hv. simpl.
    rewrite renderer_addClass_valid by assumption. reflexivity. }
  assert (Hr : ∀ v, removeClassSubscription (this v) = Open →
                    emit_removeLayoutClass className v
                    = with_element NativeElement
                        (λ e, mkElement (token_remove className (classList e)) (style e))
                        (record (Renderer_removeClass NativeElement className) v)).
  { intros v Hv. unfold emit_removeLayoutClass, onRemoveLayoutClass. rewrite Hv. simpl.
    rewrite renderer_removeClass_valid by assumption. reflexivity. }
  assert (Hin : className ∈ classList (nativeElement (emit_appendLayoutClass className w))).
  { rewrite (Ha w) by assumption. simpl. apply token_add_spec. left. reflexivity. }
  split; [exact Hin |].
  split; [| split; [| split; [| split; [| intros Hother; exact (Hkept Hother Hin)]]]];
    clear Hkept Hin;
    rewrite (Ha w) by assumption;
    rewrite ?Ha by exact Happend; rewrite ?Hr by exact Hremove; simpl.
  - rewrite token_add_idemp. reflexivity.
  - apply token_remove_not_elem.
  - intros x Hne. rewrite token_remove_spec, token_add_spec. tauto.
  - intros Hout. rewrite token_remove_add_same.
    apply token_remove_absent, Hout.
Qed.

Lemma layoutClass_append_then_remove_witness :
  appendClassSubscription (this constructed) = Open
  ∧ removeClassSubscription (this constructed) = Open
  ∧ valid_token "menu-sidebar" = true
  ∧ "menu-sidebar" ∈ classList (nativeElement (emit_appendLayoutClass "menu-sidebar" constructed))
  ∧ ("menu-sidebar"
     ∉ classList (nativeElement (emit_removeLayoutClass "menu-sidebar"
                                   (emit_appendLayoutClass "menu-sidebar" constructed)))).
Proof.
  split; [reflexivity |]. split; [reflexivity |]. split; [reflexivity |].
  pose proof (layoutClass_append_then_remove "menu-sidebar" constructed
                eq_refl eq_refl eq_refl) as (Hin & _ & Hout & _).
  split; [exact Hin | exact Hout].
Defined.

(** ** What each delivery leaves alone *)

(** X5: The streams do not interfere.  Whatever the state of the
    subscriptions and whether or not the callback throws: a theme change
    never touches the host element or the body's inline style, and of the
    component's fields it changes at most the theme subscription, which it
    closes when it throws; a layout class delivery never touches the body,
    and of the component's fields changes at most its own subscription,
    closed likewise; a request on the top area never touches the body or
    the host element; a resize touches nothing but the call log. *)
Theorem deliveries_do_not_interfere
    (theme : ThemeEvent) (className : string) (append : AppendRequest)
    (clear : ClearRequest) (event : ResizeEvent) (w : World) :
  (nativeElement (emit_themeChange theme w) = nativeElement w
   ∧ style (body (emit_themeChange theme w)) = style (body w)
   ∧ (this (emit_themeChange theme w) = this w
      ∨ this (emit_themeChange theme w) = set_themeSubscription Closed (this w)))
  ∧ (body (emit_appendLayoutClass className w) = body w
     ∧ (this (emit_appendLayoutClass className w) = this w
        ∨ this (emit_appendLayoutClass className w)
          = set_appendClassSubscription Closed (this w))
     ∧ body (emit_removeLayoutClass className w) = body w
     ∧ (this (emit_removeLayoutClass className w) = this w
        ∨ this (emit_removeLayoutClass className w)
          = set_removeClassSubscription Closed (this w)))
  ∧ (body (emit_appendToTop append w) = body w
     ∧ nativeElement (emit_appendToTop append w) = nativeElement w
     ∧ body (emit_clearLayoutTop clear w) = body w
     ∧ nativeElement (emit_clearLayoutTop clear w) = nativeElement w)
  ∧ (body (onResize event w) = body w
     ∧ nativeElement (onResize event w) = nativeElement w
     ∧ this (onResize event w) = this w).
Proof.
  destruct (emit_themeChange_effect theme w) as (Ht & Hs & Hn & _).
  destruct (emit_appendLayoutClass_effect className w) as (Hat & Hab & _).
  destruct (emit_removeLayoutClass_effect className w) as (Hrt & Hrb & _).
  destruct (emit_appendToTop_effect append w) as (_ & Hpb & Hpn & _).
  destruct (emit_clearLayoutTop_effect clear w) as (_ & Hcb & Hcn & _).
  split; [| split; [| split]].
  - split; [exact Hn |]. split; [exact Hs |].
    destruct Ht as [Ht | (_ & _ & Ht)]; [left | right]; exact Ht.
  - split; [exact Hab |]. split.
    + destruct Hat as [Hat | (_ & _ & Hat)]; [left | right]; exact Hat.
    + split; [exact Hrb |].
      destruct Hrt as [Hrt | (_ & _ & Hrt)]; [left | right]; exact Hrt.
  - repeat split; assumption.
  - repeat split; reflexivity.
Qed.

(** ** The scroll setters, beyond the claims *)

Section ScrollProperties.

Variable convertToBoolProperty : AttrValue → bool.
Hypothesis convert_bool : ∀ b, convertToBoolProperty (AttrBool b) = b.

(** X6: The [withScroll] setter changes one thing on the page, the body's
    inline [overflow]: the shorthand and with it its two longhands,
    [overflow-x] and [overflow-y], which take the same value.  The body's
    classes and its other inline declarations are as before, and so are
    the [center] and [windowMode] flags.  The last assignment wins: the
    body after two assignments is the body after the second alone.  The
    setter itself does not touch the host element; the host binding on
    [withScrollValue] does, at change detection: after the first one the
    host carries the class [with-scroll] exactly when the assigned value
    was true. *)
Theorem withScroll_touches_only_overflow (val val' : AttrValue) (w : World) :
  classList (body (set_withScroll convertToBoolProperty val w)) = classList (body w)
  ∧ (∀ k, k ∉ ["overflow"; "overflow-x"; "overflow-y"] →
          style (body (set_withScroll convertToBoolProperty val w)) !! k = style (body w) !! k)
  ∧ (∀ k, k ∈ ["overflow"; "overflow-x"; "overflow-y"] →
          style (body (set_withScroll convertToBoolProperty val w)) !! k
          = Some (if convertToBoolProperty val then "hidden" else "initial"))
  ∧ nativeElement (set_withScroll convertToBoolProperty val w) = nativeElement w
  ∧ centerValue (this (set_withScroll convertToBoolProperty val w)) = centerValue (this w)
  ∧ windowModeValue (this (set_withScroll convertToBoolProperty val w))
    = windowModeValue (this w)
  ∧ body (set_withScroll convertToBoolProperty val'
            (set_withScroll convertToBoolProperty val w))
    = body (set_withScroll convertToBoolProperty val' w)
  ∧ (hostBindings w = None →
     ("with-scroll"
      ∈ classList (nativeElement (detectChanges (set_withScroll convertToBoolProperty val w)))
      ↔ convertToBoolProperty val = true)).
Proof.
  assert (Hhost : hostBindings w = None →
            ("with-scroll"
             ∈ classList (nativeElement
                            (detectChanges (set_withScroll convertToBoolProperty val w)))
             ↔ convertToBoolProperty val = true)).
  { intros Hfirst. unfold set_withScroll, detectChanges. simpl.
    destruct (convertToBoolProperty val); simpl; rewrite Hfirst; simpl.
    - rewrite token_add_spec. split; [reflexivity | left; reflexivity].
    - split; [| discriminate]. intros Hin.
      contradiction (token_remove_not_elem "with-scroll" _ Hin). }
  assert (Hlast : ∀ (v v' : string) (m : gmap string string),
             <["overflow" := v']> (<["overflow-x" := v']> (<["overflow-y" := v']>
               (<["overflow" := v]> (<["overflow-x" := v]> (<["overflow-y" := v]> m)))))
             = <["overflow" := v']> (<["overflow-x" := v']> (<["overflow-y" := v']> m))).
  { intros v v' m. apply map_eq. intros k. rewrite !lookup_insert.
    repeat case_decide; reflexivity. }
  split; [| split; [| split; [| split; [| split; [| split; [| split; [| exact Hhost]]]]]]];
    unfold set_withScroll; simpl;
    destruct (convertToBoolProperty val), (convertToBoolProperty val'); simpl;
    first
      [ reflexivity
      | intros k Hk; rewrite !not_elem_of_cons in Hk; destruct Hk as (? & ? & ? & _);
        rewrite !lookup_insert_ne by congruence; reflexivity
      | intros k Hk; rewrite !elem_of_cons in Hk;
        destruct Hk as [-> | [-> | [-> | Hk]]]; [| | | inversion Hk];
        rewrite !lookup_insert; repeat case_decide;
        first [reflexivity | discriminate | congruence]
      | unfold setStyle; simpl; rewrite Hlast; reflexivity ].
Qed.

(** X7: Window mode does not keep [withScroll] on.  The order of the two
    assignments decides: [withScroll = false] after a [windowMode]
    assignment leaves the window-mode flag as assigned, with
    [withScrollValue] false and the body at [overflow: initial]; in the
    other order [withScrollValue] is true and the body at
    [overflow: hidden]. *)
Theorem windowMode_then_withScroll_false (val : AttrValue) (w : World) :
  (windowModeValue (this (set_withScroll convertToBoolProperty (AttrBool false)
                            (set_windowMode convertToBoolProperty val w)))
   = convertToBoolProperty val
   ∧ withScrollValue (this (set_withScroll convertToBoolProperty (AttrBool false)
                              (set_windowMode convertToBoolProperty val w))) = false
   ∧ style (body (set_withScroll convertToBoolProperty (AttrBool false)
                    (set_windowMode convertToBoolProperty val w))) !! "overflow"
     = Some "initial")
  ∧ (windowModeValue (this (set_windowMode convertToBoolProperty val
                              (set_withScroll convertToBoolProperty (AttrBool false) w)))
     = convertToBoolProperty val
     ∧ withScrollValue (this (set_windowMode convertToBoolProperty val
                                (set_withScroll convertToBoolProperty (AttrBool false) w)))
       = true
     ∧ style (body (set_windowMode convertToBoolProperty val
                      (set_withScroll convertToBoolProperty (AttrBool false) w)))
         !! "overflow"
       = Some "hidden").
Proof.
  unfold set_windowMode, set_withScroll. simpl.
  rewrite !convert_bool. simpl.
  repeat split; apply lookup_insert_eq.
Qed.

End ScrollProperties.

Lemma withScroll_touches_only_overflow_witness :
  ("color" ∉ ["overflow"; "overflow-x"; "overflow-y"])
  ∧ style (body (set_withScroll convertToBoolProperty_model (AttrBool true)
                   (renderer_setStyle Body "color" "red" constructed))) !! "color"
    = Some "red"
  ∧ style (body (set_withScroll convertToBoolProperty_model (AttrBool true)
                   (renderer_setStyle Body "color" "red" constructed))) !! "overflow-x"
    = Some "hidden".
Proof.
  assert (Hcolor : "color" ∉ ["overflow"; "overflow-x"; "overflow-y"]).
  { rewrite !not_elem_of_cons. repeat split; try discriminate. apply not_elem_of_nil. }
  pose proof (withScroll_touches_only_overflow convertToBoolProperty_model
                (AttrBool true) (AttrBool true)
                (renderer_setStyle Body "color" "red" constructed))
    as (_ & Hstyle & Hoverflow & _).
  split; [exact Hcolor |]. split.
  - rewrite (Hstyle "color" Hcolor). reflexivity.
  - apply (Hoverflow "overflow-x"). rewrite !elem_of_cons. right. left. reflexivity.
Defined.

Lemma windowMode_then_withScroll_false_witness :
  (∀ b, convertToBoolProperty_model (AttrBool b) = b)
  ∧ windowModeValue (this (set_withScroll convertToBoolProperty_model (AttrBool false)
                             (set_windowMode convertToBoolProperty_model (AttrBool true)
                                constructed))) = true
  ∧ withScrollValue (this (set_withScroll convertToBoolProperty_model (AttrBool false)
                             (set_windowMode convertToBoolProperty_model (AttrBool true)
                                constructed))) = false.
Proof.
  split; [intros b; reflexivity |].
  pose proof (windowMode_then_withScroll_false convertToBoolProperty_model (λ b, eq_refl)
                (AttrBool true) constructed) as ((Hw & Hs & _) & _).
  split; [exact Hw | exact Hs].
Defined.

(** ** Invariants of executions *)

(** What every step logs: allowed renderer calls, and a width report
    exactly for a resize event. *)
Lemma step_calls conv a w w' :
  step conv a w = Some w' →
  ∃ l, calls w' = calls w ++ l
       ∧ width_reports l = resize_widths [a]
       ∧ Forall (λ c, renderer_call_allowed c = true) l.
Proof.
  intros Hs. destruct a.
  - apply step_view_init in Hs as [_ ->].
    destruct (ngAfterViewInit_effect w) as (_ & _ & _ & _ & Hl). exact Hl.
  - simpl in Hs. injection Hs as <-.
    destruct (ngOnDestroy_outcome_effect w) as (_ & _ & _ & Hc & _).
    eexists. split; [exact Hc |]. split; [reflexivity |]. repeat constructor.
  - simpl in Hs. injection Hs as <-.
    destruct (detectChanges_frame w) as (_ & _ & Hc & _).
    exists []. rewrite app_nil_r. repeat split; [exact Hc | constructor].
  - simpl in Hs. injection Hs as <-.
    exists []. rewrite app_nil_r. repeat split. constructor.
  - simpl in Hs. injection Hs as <-. unfold set_windowMode, set_withScroll. simpl.
    destruct (conv (AttrBool true)); simpl;
      (eexists; split; [reflexivity |]; split; [reflexivity |]; repeat constructor).
  - simpl in Hs. injection Hs as <-. unfold set_withScroll. simpl.
    destruct (conv val); simpl;
      (eexists; split; [reflexivity |]; split; [reflexivity |]; repeat constructor).
  - simpl in Hs. injection Hs as <-.
    destruct (emit_themeChange_effect theme w) as (_ & _ & _ & _ & Hl). exact Hl.
  - simpl in Hs. injection Hs as <-.
    destruct (emit_appendLayoutClass_effect className w) as (_ & _ & _ & Hl). exact Hl.
  - simpl in Hs. injection Hs as <-.
    destruct (emit_removeLayoutClass_effect className w) as (_ & _ & _ & Hl). exact Hl.
  - simpl in Hs. injection Hs as <-.
    destruct (emit_appendToTop_effect data w) as (_ & _ & _ & _ & Hl). exact Hl.
  - simpl in Hs. injection Hs as <-.
    destruct (emit_clearLayoutTop_effect data w) as (_ & _ & _ & _ & Hl). exact Hl.
  - simpl in Hs. injection Hs as <-.
    eexists. split; [reflexivity |]. split; [reflexivity |]. repeat constructor.
Qed.

(** What the steps other than the two scroll inputs do to the scroll flag
    and to the body's inline style. *)
Lemma step_scroll_frame conv a w w' :
  is_scroll_input a = false → step conv a w = Some w' →
  style (body w') = style (body w)
  ∧ withScrollValue (this w') = withScrollValue (this w).
Proof.
  intros Hi Hs.
  destruct a; try discriminate Hi.
  - apply step_view_init in Hs as [_ ->].
    destruct (ngAfterViewInit_effect w) as (Ht & Hb & _).
    rewrite Hb, Ht. split; reflexivity.
  - simpl in Hs. injection Hs as <-.
    destruct (ngOnDestroy_outcome_effect w) as (Hb & _ & _ & _ & Hv & _).
    rewrite Hb, Hv. split; reflexivity.
  - simpl in Hs. injection Hs as <-.
    destruct (detectChanges_frame w) as (Ht & Hb & _).
    rewrite Ht, Hb. split; reflexivity.
  - simpl in Hs. injection Hs as <-. split; reflexivity.
  - simpl in Hs. injection Hs as <-.
    destruct (emit_themeChange_effect theme w) as ([-> | (_ & _ & ->)] & -> & _);
      split; reflexivity.
  - simpl in Hs. injection Hs as <-.
    destruct (emit_appendLayoutClass_effect className w)
      as ([-> | (_ & _ & ->)] & -> & _); split; reflexivity.
  - simpl in Hs. injection Hs as <-.
    destruct (emit_removeLayoutClass_effect className w)
      as ([-> | (_ & _ & ->)] & -> & _); split; reflexivity.
  - simpl in Hs. injection Hs as <-.
    destruct (emit_appendToTop_effect data w)
      as ([-> | [(_ & _ & ->) | (_ & _ & ->)]] & Hb & _);
      rewrite ?Hb; split; reflexivity.
  - simpl in Hs. injection Hs as <-.
    destruct (emit_clearLayoutTop_effect data w) as ([-> | (_ & ->)] & Hb & _);
      rewrite ?Hb; split; reflexivity.
  - simpl in Hs. injection Hs as <-. split; reflexivity.
Qed.

(** X12: The scroll flag and the body's [overflow] declaration stay in step.
    In every execution of a constructed component: once [withScroll] has
    been assigned, directly or through [windowMode], the body's inline
    [overflow] is [hidden] exactly when [withScrollValue] is true and
    [initial] otherwise, whatever else has happened since; and as long as
    it has not been assigned, the body's inline style is the one the
    document had and [withScrollValue] is false. *)
Theorem overflow_follows_withScroll
    (convertToBoolProperty : AttrValue → bool) (innerWidth : Z) (b h : Element)
    (tr : list Action) (w : World)
    (Hrun : run convertToBoolProperty tr (constructor innerWidth (new_world b h)) = Some w) :
  if existsb is_scroll_input tr
  then style (body w) !! "overflow"
       = Some (if withScrollValue (this w) then "hidden" else "initial")
  else style (body w) = style b ∧ withScrollValue (this w) = false.
Proof.
  apply dispatch_run in Hrun as [al Hrun].
  apply (dispatch_invariant convertToBoolProperty
           (λ hist _ v,
              if existsb is_scroll_input hist
              then style (body v) !! "overflow"
                   = Some (if withScrollValue (this v) then "hidden" else "initial")
              else style (body v) = style b ∧ withScrollValue (this v) = false)
           (λ _ _, true))
    with (hist := []) (tr := tr) (al := true)
         (w := constructor innerWidth (new_world b h)) (al' := al);
    [| | split; reflexivity | apply all_prefixed_true
     | exact Hrun].
  - intros hist a al0 v v' Hv _ _ Hs. rewrite existsb_snoc.
    destruct (is_scroll_input a) eqn:Hi.
    + rewrite orb_true_r.
      destruct a; try discriminate Hi; simpl in Hs; injection Hs as <-.
      * unfold set_windowMode.
        destruct (set_withScroll_spec convertToBoolProperty (AttrBool true)
                    (with_this (set_windowModeValue (convertToBoolProperty val)) v))
          as (Hflag & Hstyle & _).
        rewrite Hflag. exact Hstyle.
      * destruct (set_withScroll_spec convertToBoolProperty val v) as (Hflag & Hstyle & _).
        rewrite Hflag. exact Hstyle.
    + rewrite orb_false_r.
      destruct (step_scroll_frame convertToBoolProperty a v v' Hi Hs) as [Hstyle Hflag].
      rewrite Hstyle, Hflag. exact Hv.
  - intros hist a al0 v Hv _ _ Hr. rewrite existsb_snoc.
    destruct a; try discriminate Hr. rewrite orb_false_r. exact Hv.
Qed.

Lemma overflow_follows_withScroll_witness :
  ∃ w, run convertToBoolProperty_model
         [SetWindowMode (AttrString "false"); ThemeChange theme_a; NgAfterViewInit;
          SetWithScroll (AttrBool false); AppendLayoutClass "menu-sidebar"] constructed
       = Some w
       ∧ withScrollValue (this w) = false
       ∧ style (body w) !! "overflow" = Some "initial".
Proof.
  destruct (run convertToBoolProperty_model
              [SetWindowMode (AttrString "false"); ThemeChange theme_a; NgAfterViewInit;
               SetWithScroll (AttrBool false); AppendLayoutClass "menu-sidebar"] constructed)
    as [w |] eqn:Hrun.
  - exists w. split; [reflexivity |].
    pose proof (overflow_follows_withScroll convertToBoolProperty_model 1024 blank blank
                  [SetWindowMode (AttrString "false"); ThemeChange theme_a; NgAfterViewInit;
                   SetWithScroll (AttrBool false); AppendLayoutClass "menu-sidebar"]
                  w Hrun) as Hsync.
    simpl in Hsync.
    assert (Hflag : withScrollValue (this w) = false).
    { vm_compute in Hrun. injection Hrun as <-. reflexivity. }
    rewrite Hflag in Hsync. split; [exact Hflag | exact Hsync].
  - vm_compute in Hrun. discriminate Hrun.
Defined.

(** ** What the component asks of the renderer *)

(** X15: The component keeps its hands off the rest of the page.  In every
    execution of a constructed component, all it ever asks of the renderer
    is: on the body, to add or remove a class that starts with [nb-theme-]
    and to set [overflow] to [hidden] or [initial]; on its host element, to
    add or remove a class.  It never sets a style on the host and never
    touches another body class or another body style. *)
Theorem renderer_calls_confined
    (convertToBoolProperty : AttrValue → bool) (innerWidth : Z) (b h : Element)
    (tr : list Action) (w : World)
    (Hrun : run convertToBoolProperty tr (constructor innerWidth (new_world b h)) = Some w) :
  Forall (λ c, renderer_call_allowed c = true) (calls w).
Proof.
  apply dispatch_run in Hrun as [al Hrun].
  apply (dispatch_invariant convertToBoolProperty
           (λ _ _ v, Forall (λ c, renderer_call_allowed c = true) (calls v))
           (λ _ _, true))
    with (hist := []) (tr := tr) (al := true)
         (w := constructor innerWidth (new_world b h)) (al' := al);
    [| | repeat constructor | apply all_prefixed_true
     | exact Hrun].
  - intros hist a al0 v v' Hv _ _ Hs.
    destruct (step_calls convertToBoolProperty a v v' Hs) as (l & -> & _ & Hl).
    apply Forall_app. split; assumption.
  - intros hist a al0 v Hv _ _ _. exact Hv.
Qed.

Lemma renderer_calls_confined_witness :
  ∃ w, run convertToBoolProperty_model
         [ThemeChange theme_a; SetWindowMode (AttrBool true);
          AppendLayoutClass "menu-sidebar"; NgAfterViewInit; NgOnDestroy] constructed
       = Some w
       ∧ Forall (λ c, renderer_call_allowed c = true) (calls w).
Proof.
  destruct (run convertToBoolProperty_model
              [ThemeChange theme_a; SetWindowMode (AttrBool true);
               AppendLayoutClass "menu-sidebar"; NgAfterViewInit; NgOnDestroy] constructed)
    as [w |] eqn:Hrun.
  - exists w. split; [reflexivity |].
    apply (renderer_calls_confined convertToBoolProperty_model 1024 blank blank
             [ThemeChange theme_a; SetWindowMode (AttrBool true);
              AppendLayoutClass "menu-sidebar"; NgAfterViewInit; NgOnDestroy] w Hrun).
  - vm_compute in Hrun. discriminate Hrun.
Defined.

(** ** The stages of an instance *)

Lemma resize_widths_app tr1 tr2 :
  resize_widths (tr1 ++ tr2) = resize_widths tr1 ++ resize_widths tr2.
Proof. apply omap_app. Qed.

Lemma before_destroy_snoc hist a :
  before_destroy (hist ++ [a])
  = if existsb is_destroy hist || is_destroy a
    then before_destroy hist
    else before_destroy hist ++ [a].
Proof.
  induction hist as [| x hist IH]; simpl.
  - destruct (is_destroy a); reflexivity.
  - destruct (is_destroy x); simpl; [reflexivity |].
    rewrite IH. destruct (existsb is_destroy hist || is_destroy a); reflexivity.
Qed.

Local Ltac assigned_frame :=
  simpl; (split; [| split]); intros; try discriminate;
  repeat match goal with
         | H : _ && _ = true |- _ => apply andb_prop in H as [? ?]
         end;
  repeat (apply andb_true_intro; split); first [assumption | reflexivity].

(** A subscription field, once assigned, stays assigned; [ngAfterViewInit]
    assigns the two the constructor left. *)
Lemma step_assigned conv a w w' :
  step conv a w = Some w' →
  (subscriptions_assigned w = true → subscriptions_assigned w' = true)
  ∧ (is_destroy a = false → constructor_assigned w = true → constructor_assigned w' = true)
  ∧ (is_view_init a = true → constructor_assigned w = true →
     subscriptions_assigned w' = true).
Proof.
  intros Hs. destruct a.
  - apply step_view_init in Hs as [_ ->].
    destruct (ngAfterViewInit_effect w) as (Heq & _).
    unfold subscriptions_assigned, constructor_assigned. rewrite Heq. assigned_frame.
  - simpl in Hs. injection Hs as <-.
    destruct (ngOnDestroy_outcome_effect w) as (_ & _ & _ & _ & _ & _ & _ & _ & _ & Heq).
    rewrite Heq. split; [tauto |]. split; discriminate.
  - simpl in Hs. injection Hs as <-.
    unfold subscriptions_assigned, constructor_assigned.
    rewrite (proj1 (detectChanges_frame w)). assigned_frame.
  - simpl in Hs. injection Hs as <-.
    unfold subscriptions_assigned, constructor_assigned, set_center. assigned_frame.
  - simpl in Hs. injection Hs as <-.
    unfold subscriptions_assigned, constructor_assigned, set_windowMode, set_withScroll.
    simpl. destruct (conv (AttrBool true)); assigned_frame.
  - simpl in Hs. injection Hs as <-.
    unfold subscriptions_assigned, constructor_assigned, set_withScroll.
    simpl. destruct (conv val); assigned_frame.
  - simpl in Hs. injection Hs as <-.
    unfold subscriptions_assigned, constructor_assigned.
    destruct (emit_themeChange_effect theme w) as ([-> | (_ & _ & ->)] & _);
      assigned_frame.
  - simpl in Hs. injection Hs as <-.
    unfold subscriptions_assigned, constructor_assigned.
    destruct (emit_appendLayoutClass_effect className w) as ([-> | (_ & _ & ->)] & _);
      assigned_frame.
  - simpl in Hs. injection Hs as <-.
    unfold subscriptions_assigned, constructor_assigned.
    destruct (emit_removeLayoutClass_effect className w) as ([-> | (_ & _ & ->)] & _);
      assigned_frame.
  - simpl in Hs. injection Hs as <-.
    unfold subscriptions_assigned, constructor_assigned.
    destruct (emit_appendToTop_effect data w)
      as ([-> | [(_ & _ & ->) | (_ & _ & ->)]] & _); assigned_frame.
  - simpl in Hs. injection Hs as <-.
    unfold subscriptions_assigned, constructor_assigned.
    destruct (emit_clearLayoutTop_effect data w) as ([-> | (_ & ->)] & _);
      assigned_frame.
  - simpl in Hs. injection Hs as <-.
    unfold subscriptions_assigned, constructor_assigned, onResize. assigned_frame.
Qed.

(** A step whose callback does not throw, the two lifecycle hooks apart,
    leaves the subscription fields as they are. *)
Lemma step_clean_subscriptions conv a w w' :
  clean a = true → is_view_init a = false → is_destroy a = false →
  step conv a w = Some w' → subscriptions w' = subscriptions w.
Proof.
  intros Hc Hv Hd Hs. unfold subscriptions.
  destruct a; try discriminate Hv; try discriminate Hd;
    simpl in Hs, Hc; injection Hs as <-.
  - rewrite (proj1 (detectChanges_frame w)). reflexivity.
  - reflexivity.
  - unfold set_windowMode, set_withScroll. simpl.
    destruct (conv (AttrBool true)); reflexivity.
  - unfold set_withScroll. simpl. destruct (conv val); reflexivity.
  - destruct (emit_themeChange_effect theme w) as ([-> | (_ & Hbad & _)] & _);
      [reflexivity | rewrite Hc in Hbad; discriminate Hbad].
  - destruct (emit_appendLayoutClass_effect className w) as ([-> | (_ & Hbad & _)] & _);
      [reflexivity | rewrite Hc in Hbad; discriminate Hbad].
  - destruct (emit_removeLayoutClass_effect className w) as ([-> | (_ & Hbad & _)] & _);
      [reflexivity | rewrite Hc in Hbad; discriminate Hbad].
  - destruct (emit_appendToTop_effect data w)
      as ([-> | [(_ & Hbad & _) | (_ & _ & ->)]] & _);
      [reflexivity | rewrite Hc in Hbad; discriminate Hbad | reflexivity].
  - destruct (emit_clearLayoutTop_effect data w) as ([-> | (_ & ->)] & _); reflexivity.
  - reflexivity.
Qed.

Lemma phase_of_inv w p :
  phase_of w = Some p →
  subscriptions w
  = match p with
    | ViewPending => (Open, Open, Open, Undefined, Undefined)
    | ViewAttached => (Open, Open, Open, Open, Open)
    | Destroyed => (Closed, Closed, Closed, Closed, Closed)
    end.
Proof.
  unfold phase_of. destruct (subscriptions w) as [[[[s1 s2] s3] s4] s5].
  destruct s1, s2, s3, s4, s5; intros H; try discriminate H;
    injection H as <-; reflexivity.
Qed.

Lemma ngAfterViewInit_phase w p :
  phase_of w = Some p → view_pending w = true →
  p = ViewPending ∧ phase_of (ngAfterViewInit w) = Some ViewAttached.
Proof.
  intros Hp Hv. apply phase_of_inv in Hp.
  destruct (ngAfterViewInit_effect w) as (Heq & _).
  unfold phase_of, subscriptions, view_pending in *. rewrite Heq. simpl.
  destruct p; injection Hp as H1 H2 H3 H4 H5; rewrite H4 in Hv;
    try rewrite H5 in Hv; try discriminate Hv.
  rewrite H1, H2, H3. split; reflexivity.
Qed.

Lemma ngOnDestroy_attached w :
  phase_of w = Some ViewAttached →
  phase_of (world_of (ngOnDestroy_outcome w)) = Some Destroyed
  ∧ returned (ngOnDestroy_outcome w) = true.
Proof.
  intros Hp. apply phase_of_inv in Hp. unfold subscriptions in Hp.
  injection Hp as H1 H2 H3 H4 H5.
  destruct (ngOnDestroy_outcome_effect w)
    as (_ & _ & _ & _ & _ & _ & Hret & Hclosed & _).
  assert (Hassigned : returned (ngOnDestroy_outcome w) = true).
  { rewrite Hret. unfold subscriptions_assigned.
    rewrite H1, H2, H3, H4, H5. reflexivity. }
  split; [| exact Hassigned].
  destruct (Hclosed Hassigned) as (C1 & C2 & C3 & C4 & C5).
  unfold phase_of, subscriptions. rewrite C1, C2, C3, C4, C5. reflexivity.
Qed.

(** Where an orderly execution of a constructed component stands. *)
Lemma run_phase conv innerWidth b h tr al w :
  orderly tr = true →
  dispatch conv true tr (constructor innerWidth (new_world b h)) = Some (al, w) →
  phase_of w = Some (if existsb is_destroy tr then Destroyed
                     else if existsb is_view_init tr then ViewAttached else ViewPending)
  ∧ al = negb (existsb is_destroy tr).
Proof.
  intros Horder Hrun.
  apply (dispatch_invariant conv
           (λ hist al v,
              phase_of v = Some (if existsb is_destroy hist then Destroyed
                                 else if existsb is_view_init hist
                                      then ViewAttached else ViewPending)
              ∧ al = negb (existsb is_destroy hist))
           (λ hist a, clean a && (negb (is_destroy a) || existsb is_view_init hist)))
    with (hist := []) (tr := tr) (al := true)
         (w := constructor innerWidth (new_world b h)) (al' := al);
    [| | split; reflexivity | exact Horder | exact Hrun].
  - intros hist a al0 v v' [Hph Hal] HQ Hlive Hs.
    apply andb_prop in HQ as [Hclean Hafter].
    rewrite !existsb_snoc.
    destruct (is_view_init a) eqn:Hv; [| destruct (is_destroy a) eqn:Hd].
    + assert (Ha : a = NgAfterViewInit) by (destruct a; try discriminate Hv; reflexivity).
      subst a. apply step_view_init in Hs as [Hpending ->].
      destruct (ngAfterViewInit_phase v _ Hph Hpending) as [Hp Hph'].
      destruct (existsb is_destroy hist); [discriminate Hp |].
      destruct (existsb is_view_init hist); [discriminate Hp |].
      simpl. split; [exact Hph' |]. subst al0. reflexivity.
    + assert (Ha : a = NgOnDestroy) by (destruct a; try discriminate Hd; reflexivity).
      subst a. simpl in Hs. injection Hs as <-.
      simpl in Hlive, Hafter. rewrite orb_false_r in Hlive. subst al0.
      apply negb_true_iff in Hlive. rewrite Hlive in *.
      rewrite Hafter in Hph.
      destruct (ngOnDestroy_attached v Hph) as [Hph' Hret].
      simpl. split; [exact Hph' |].
      unfold destroys. rewrite Hret. reflexivity.
    + rewrite !orb_false_r.
      pose proof (step_clean_subscriptions conv a v v' Hclean Hv Hd Hs) as Hsubs.
      unfold phase_of in *. rewrite Hsubs. split; [exact Hph |].
      unfold destroys. rewrite Hd. simpl. rewrite andb_true_r. exact Hal.
  - intros hist a al0 v [Hph Hal] _ _ Hr. rewrite !existsb_snoc.
    destruct a; try discriminate Hr. simpl. rewrite !orb_false_r.
    split; assumption.
Qed.

(** X10: The five subscriptions move together through three stages.  Take
    an execution of a constructed component in which no callback throws
    (every class is a valid token, every requested component has a factory)
    and [ngOnDestroy] comes only after [ngAfterViewInit].  It leaves the
    five subscriptions all closed if it contains [ngOnDestroy]; otherwise
    all open if it contains [ngAfterViewInit]; otherwise the three of the
    constructor open and the other two unassigned. *)
Theorem lifecycle_phases
    (convertToBoolProperty : AttrValue → bool) (innerWidth : Z) (b h : Element)
    (tr : list Action) (w : World)
    (Horderly : orderly tr = true)
    (Hrun : run convertToBoolProperty tr (constructor innerWidth (new_world b h)) = Some w) :
  phase_of w = Some (if existsb is_destroy tr then Destroyed
                     else if existsb is_view_init tr then ViewAttached else ViewPending).
Proof.
  apply dispatch_run in Hrun as [al Hrun].
  exact (proj1 (run_phase convertToBoolProperty innerWidth b h tr al w Horderly Hrun)).
Qed.

Lemma lifecycle_phases_witness :
  orderly [ThemeChange theme_a; NgAfterViewInit; NgOnDestroy] = true
  ∧ ∃ w, run convertToBoolProperty_model
           [ThemeChange theme_a; NgAfterViewInit; NgOnDestroy] constructed = Some w
         ∧ phase_of w = Some Destroyed.
Proof.
  split; [reflexivity |].
  destruct (run convertToBoolProperty_model
              [ThemeChange theme_a; NgAfterViewInit; NgOnDestroy] constructed)
    as [w |] eqn:Hrun.
  - exists w. split; [reflexivity |].
    apply (lifecycle_phases convertToBoolProperty_model 1024 blank blank
             [ThemeChange theme_a; NgAfterViewInit; NgOnDestroy] w eq_refl Hrun).
  - vm_compute in Hrun. discriminate Hrun.
Defined.

(** ** Window widths over an execution *)

(** X11: Over an execution the theme service is told the window width once
    by the constructor and then once per resize event that reaches the
    component, in order, and by nothing else.  In an execution in which
    [ngOnDestroy] comes only after [ngAfterViewInit], the reported widths
    are the initial width followed by the widths of the resize events that
    come before [ngOnDestroy]; the resize events after it report
    nothing. *)
Theorem width_reports_of_execution
    (convertToBoolProperty : AttrValue → bool) (innerWidth : Z) (b h : Element)
    (tr : list Action) (w : World)
    (Hafter : destroy_after_init tr = true)
    (Hrun : run convertToBoolProperty tr (constructor innerWidth (new_world b h)) = Some w) :
  width_reports (calls w) = innerWidth :: resize_widths (before_destroy tr).
Proof.
  apply dispatch_run in Hrun as [al Hrun].
  pose (I := λ (hist : list Action) (al : bool) (v : World),
          width_reports (calls v) = innerWidth :: resize_widths (before_destroy hist)
          ∧ al = negb (existsb is_destroy hist)
          ∧ constructor_assigned v = true
          ∧ (existsb is_view_init hist = true → subscriptions_assigned v = true)).
  assert (Hinv : I ([] ++ tr) al w); [| exact (proj1 Hinv)].
  apply (dispatch_invariant convertToBoolProperty I
           (λ hist a, negb (is_destroy a) || existsb is_view_init hist))
    with (al := true) (w := constructor innerWidth (new_world b h));
    [| | | exact Hafter | exact Hrun].
  - intros hist a al0 v v' (Hw & Hal & Hcons & Hall) HQ Hlive Hs.
    destruct (step_calls convertToBoolProperty a v v' Hs) as (l & Hcalls & Hl & _).
    destruct (step_assigned convertToBoolProperty a v v' Hs) as (Hkeep & Hkeep3 & Hinit).
    assert (Hdestroy : is_destroy a = true → subscriptions_assigned v = true).
    { intros Hd. rewrite Hd in HQ. simpl in HQ. apply Hall, HQ. }
    unfold I. rewrite !existsb_snoc, before_destroy_snoc.
    split; [| split; [| split]].
    + rewrite Hcalls, width_reports_app, Hw, Hl.
      destruct (existsb is_destroy hist) eqn:Hgone; simpl.
      * subst al0. simpl in Hlive.
        destruct a; try discriminate Hlive; simpl; rewrite app_nil_r; reflexivity.
      * destruct (is_destroy a) eqn:Hd.
        -- destruct a; try discriminate Hd. simpl. rewrite app_nil_r. reflexivity.
        -- rewrite resize_widths_app. reflexivity.
    + subst al0. destruct (existsb is_destroy hist); [reflexivity |]. simpl.
      unfold destroys. destruct (is_destroy a) eqn:Hd; [| reflexivity].
      destruct (ngOnDestroy_outcome_effect v) as (_ & _ & _ & _ & _ & _ & Hret & _).
      rewrite Hret, (Hdestroy eq_refl). reflexivity.
    + destruct (is_destroy a) eqn:Hd.
      * pose proof (Hkeep (Hdestroy eq_refl)) as Hnow.
        unfold subscriptions_assigned in Hnow. unfold constructor_assigned.
        apply andb_prop in Hnow as [Hnow _]. apply andb_prop in Hnow as [Hnow _].
        exact Hnow.
      * apply Hkeep3; [reflexivity | exact Hcons].
    + intros Hseen. apply orb_prop in Hseen as [Hseen | Hseen].
      * apply Hkeep, Hall, Hseen.
      * apply Hinit; assumption.
  - intros hist a al0 v (Hw & Hal & Hcons & Hall) _ Hdead Hr.
    apply orb_false_elim in Hdead as [Hdead _]. subst al0.
    apply negb_false_iff in Hdead.
    assert (Hview : is_view_init a = false) by (destruct a; try discriminate Hr; reflexivity).
    unfold I. rewrite !existsb_snoc, before_destroy_snoc, Hdead, Hview, orb_false_r. simpl.
    split; [exact Hw |]. split; [reflexivity |]. split; [exact Hcons | exact Hall].
  - unfold I. simpl. repeat split. discriminate.
Qed.

Lemma width_reports_of_execution_witness :
  destroy_after_init
    [NgAfterViewInit; WindowResize (mkResize 800); NgOnDestroy; WindowResize (mkResize 640)]
  = true
  ∧ ∃ w, run convertToBoolProperty_model
           [NgAfterViewInit; WindowResize (mkResize 800); NgOnDestroy;
            WindowResize (mkResize 640)] constructed = Some w
         ∧ width_reports (calls w) = [1024; 800]%Z.
Proof.
  split; [reflexivity |].
  destruct (run convertToBoolProperty_model
              [NgAfterViewInit; WindowResize (mkResize 800); NgOnDestroy;
               WindowResize (mkResize 640)] constructed)
    as [w |] eqn:Hrun.
  - exists w. split; [reflexivity |].
    apply (width_reports_of_execution convertToBoolProperty_model 1024 blank blank
             [NgAfterViewInit; WindowResize (mkResize 800); NgOnDestroy;
              WindowResize (mkResize 640)] w eq_refl Hrun).
  - vm_compute in Hrun. discriminate Hrun.
Defined.

(** ** Requests on the top area, in sequence *)

Lemma created_refs_types n requests :
  (λ r, componentType (factory r)) <$> created_refs n requests = component <$> requests.
Proof.
  revert n. induction requests as [| data requests IH]; intros n; simpl.
  - reflexivity.
  - rewrite IH. reflexivity.
Qed.

Lemma emit_appendsToTop_entries requests w :
  forallb (λ data, entryComponent (component data)) requests = true →
  appendSubscription (this w) = Open →
  appendSubscription (this (emit_appendsToTop requests w)) = Open
  ∧ clearSubscription (this (emit_appendsToTop requests w)) = clearSubscription (this w)
  ∧ veryTopRef (this (emit_appendsToTop requests w))
    = veryTopRef (this w) ++ created_refs (created w) requests
  ∧ calls (emit_appendsToTop requests w) = calls w ++ append_signals (created w) requests.
Proof.
  unfold emit_appendsToTop.
  revert w. induction requests as [| data requests IH]; intros w Hentries Hopen; simpl.
  - rewrite !app_nil_r. repeat split. exact Hopen.
  - simpl in Hentries. apply andb_prop in Hentries as [Hentry Hentries].
    pose proof (emit_appendToTop_entry data w Hopen Hentry) as Heq.
    destruct (onAppendToTop_entry data w Hentry)
      as (w' & Hret & Hthis & Hcreated & Hcalls & _).
    rewrite Hret in Heq. injection Heq as Heq. subst w'.
    assert (Hopen' : appendSubscription (this (emit_appendToTop data w)) = Open).
    { rewrite Hthis. exact Hopen. }
    destruct (IH (emit_appendToTop data w) Hentries Hopen') as (Ha & Hc & Ht & Hl).
    rewrite Ha, Hc, Ht, Hl, Hcreated, Hcalls, Hthis. simpl.
    rewrite <- !app_assoc. repeat split.
Qed.

(** X13: Append requests are served one by one in arrival order.  After a
    run of requests, each for a component the resolver has a factory for,
    delivered to an open append subscription, the insertion point holds
    what it held before followed by one new instance per request, of the
    requested types in request order; each listener has been sent its own
    instance and then completed, in request order; and a clear request
    delivered next empties the insertion point whatever was appended. *)
Theorem appends_served_in_order
    (requests : list AppendRequest) (clear : ClearRequest) (w : World)
    (Hentries : forallb (λ data, entryComponent (component data)) requests = true)
    (Happend : appendSubscription (this w) = Open)
    (Hclear : clearSubscription (this w) = Open) :
  veryTopRef (this (emit_appendsToTop requests w))
  = veryTopRef (this w) ++ created_refs (created w) requests
  ∧ (λ r, componentType (factory r)) <$> created_refs (created w) requests
    = component <$> requests
  ∧ calls (emit_appendsToTop requests w)
    = calls w ++ append_signals (created w) requests
  ∧ veryTopRef (this (emit_clearLayoutTop clear (emit_appendsToTop requests w))) = [].
Proof.
  destruct (emit_appendsToTop_entries requests w Hentries Happend) as (Ha & Hc & Ht & Hl).
  split; [exact Ht |]. split; [| split; [exact Hl |]].
  - apply created_refs_types.
  - unfold emit_clearLayoutTop. rewrite Hc, Hclear. reflexivity.
Qed.

Lemma appends_served_in_order_witness :
  forallb (λ data, entryComponent (component data))
    [mkAppend NbSpinnerComponent 7; mkAppend (mkComponent "NbModalComponent" true) 9] = true
  ∧ appendSubscription (this attached) = Open
  ∧ clearSubscription (this attached) = Open
  ∧ veryTopRef (this (emit_appendsToTop
                        [mkAppend NbSpinnerComponent 7;
                         mkAppend (mkComponent "NbModalComponent" true) 9]
                        attached))
    = [mkRef (mkFactory NbSpinnerComponent) 0;
       mkRef (mkFactory (mkComponent "NbModalComponent" true)) 1].
Proof.
  split; [reflexivity |]. split; [reflexivity |]. split; [reflexivity |].
  apply (appends_served_in_order
           [mkAppend NbSpinnerComponent 7; mkAppend (mkComponent "NbModalComponent" true) 9]
           (mkClear 8) attached eq_refl eq_refl eq_refl).
Defined.

(** ** From construction to destruction: which deliveries are served *)

(** X14: Theme changes are served from the constructor until [ngOnDestroy],
    append requests from [ngAfterViewInit] until [ngOnDestroy].  Take an
    execution of a constructed component in which no callback throws and
    [ngOnDestroy] comes only after [ngAfterViewInit], a theme event whose
    names hold no whitespace, and an append request for a component the
    resolver has a factory for.  At the end of the execution: if it
    contains [ngOnDestroy], neither delivery changes anything; otherwise
    the theme change puts its class on the body and, if the execution
    contains [ngAfterViewInit], the append request adds one instance to the
    insertion point. *)
Theorem deliveries_served_by_phase
    (convertToBoolProperty : AttrValue → bool) (innerWidth : Z) (b h : Element)
    (tr : list Action) (theme : ThemeEvent) (data : AppendRequest) (w : World)
    (Horderly : orderly tr = true)
    (Htheme : theme_ok theme = true)
    (Hentry : entryComponent (component data) = true)
    (Hrun : run convertToBoolProperty tr (constructor innerWidth (new_world b h)) = Some w) :
  if existsb is_destroy tr
  then emit_themeChange theme w = w ∧ emit_appendToTop data w = w
  else themeClass (name theme) ∈ classList (body (emit_themeChange theme w))
       ∧ (existsb is_view_init tr = true →
          length (veryTopRef (this (emit_appendToTop data w)))
          = S (length (veryTopRef (this w)))).
Proof.
  apply dispatch_run in Hrun as [al Hrun].
  destruct (run_phase convertToBoolProperty innerWidth b h tr al w Horderly Hrun)
    as [Hph _].
  apply phase_of_inv in Hph. unfold subscriptions in Hph.
  assert (Hserved : themeSubscription (this w) = Open →
                    themeClass (name theme) ∈ classList (body (emit_themeChange theme w))).
  { intros Hopen. destruct (emit_themeChange_step theme w Hopen Htheme) as [-> _].
    apply token_add_spec. left. reflexivity. }
  destruct (existsb is_destroy tr).
  - injection Hph as _ _ Ht Ha _.
    unfold emit_themeChange, emit_appendToTop. rewrite Ht, Ha. split; reflexivity.
  - destruct (existsb is_view_init tr); injection Hph as _ _ Ht Ha _.
    + split; [exact (Hserved Ht) |]. intros _.
      pose proof (emit_appendToTop_entry data w Ha Hentry) as Heq.
      destruct (onAppendToTop_entry data w Hentry) as (w' & Hret & Hthis & _).
      rewrite Hret in Heq. injection Heq as Heq. subst w'.
      rewrite Hthis. simpl. rewrite length_app. simpl. lia.
    + split; [exact (Hserved Ht) | discriminate].
Qed.

Lemma deliveries_served_by_phase_witness :
  orderly [ThemeChange theme_a; NgAfterViewInit] = true
  ∧ theme_ok theme_b = true
  ∧ entryComponent (component (mkAppend NbSpinnerComponent 7)) = true
  ∧ ∃ w, run convertToBoolProperty_model [ThemeChange theme_a; NgAfterViewInit] constructed
         = Some w
         ∧ "nb-theme-b" ∈ classList (body (emit_themeChange theme_b w))
         ∧ length (veryTopRef (this (emit_appendToTop (mkAppend NbSpinnerComponent 7) w)))
           = S (length (veryTopRef (this w))).
Proof.
  split; [reflexivity |]. split; [reflexivity |]. split; [reflexivity |].
  destruct (run convertToBoolProperty_model [ThemeChange theme_a; NgAfterViewInit] constructed)
    as [w |] eqn:Hrun.
  - exists w.
    pose proof (deliveries_served_by_phase convertToBoolProperty_model 1024 blank blank
                  [ThemeChange theme_a; NgAfterViewInit]
                  theme_b (mkAppend NbSpinnerComponent 7) w eq_refl eq_refl eq_refl Hrun)
      as Hserved.
    simpl in Hserved. destruct Hserved as [Htheme Happend].
    split; [reflexivity |]. split; [exact Htheme | exact (Happend eq_refl)].
  - vm_compute in Hrun. discriminate Hrun.
Defined.
